(** * ckanext-gwexplorer: the two DSL actions and the view predicate

    A shallow embedding of [ckanext/gwexplorer/actions.py] and of
    [GwexplorerPlugin.can_view] from [ckanext/gwexplorer/plugin.py].

    Modelling choices, in one place:
    - request data (the [data_dict] of an action) is caller controlled and is
      kept as untyped JSON: a [gmap string pyval];
    - what the host platform and the parsing library hand back (the
      [datastore_search] result, the parser's [raw_fields] and rows, the
      resource given to [can_view]) is typed by the shape those libraries
      document;
    - a Python call that may raise is a computation in the monad [M], which
      also records every call made to the host or to the parsing library;
    - [log.error] only writes to the logger and is left out. *)

From stdpp Require Import base strings gmap list sorting.
From Stdlib Require Import ZArith Ascii String.

Set Warnings "-register-all".
Local Open Scope Z_scope.

(** ** Python values *)

(** The JSON fragment of Python's values. Floats are left out. *)
Inductive pyval :=
| PNone
| PBool (b : bool)
| PInt (z : Z)
| PStr (s : string)
| PList (l : list pyval)
| PDict (d : gmap string pyval).

(** [bool(v)], the test behind [if not v]. *)
Definition truthy (v : pyval) : bool :=
  match v with
  | PNone => false
  | PBool b => b
  | PInt z => negb (z =? 0)
  | PStr s => negb (String.eqb s "")
  | PList l => match l with [] => false | _ :: _ => true end
  | PDict d => negb (Nat.eqb (size d) 0)
  end.

(** [type(v).__name__], as it shows in an [AttributeError]. *)
Definition py_type_name (v : pyval) : string :=
  match v with
  | PNone => "NoneType"
  | PBool _ => "bool"
  | PInt _ => "int"
  | PStr _ => "str"
  | PList _ => "list"
  | PDict _ => "dict"
  end.

(** [d.get(k)] and [d.get(k, dflt)] on a dictionary with string keys. *)
Definition dict_get (d : gmap string pyval) (k : string) : pyval :=
  default PNone (d !! k).

Definition dict_get_default (d : gmap string pyval) (k : string) (dflt : pyval)
  : pyval :=
  default dflt (d !! k).

(** ** Strings *)

(** [str.lower] on the ASCII letters. Every string the code compares a
    lowered string with is made of ASCII letters that no other code point
    lowers to, so the comparisons agree with Python's on all inputs. *)
Definition lower_ascii (c : ascii) : ascii :=
  let n := nat_of_ascii c in
  if ((65 <=? n) && (n <=? 90))%nat then ascii_of_nat (n + 32) else c.

Fixpoint str_lower (s : string) : string :=
  match s with
  | EmptyString => EmptyString
  | String c s' => String (lower_ascii c) (str_lower s')
  end.

(** [needle in hay] for two strings. *)
Fixpoint str_contains (needle hay : string) : bool :=
  String.prefix needle hay
  || match hay with
     | EmptyString => false
     | String _ hay' => str_contains needle hay'
     end.

(** ** Exceptions *)

Inductive exc_class :=
| DSLQueryError
| DatabaseConnectionError
| AttributeError
| HTTPException (status : Z)
| NotAuthorized
| ObjectNotFound
| OtherException (name : string).

(** An exception: its class and the text [str(e)] gives. All the classes
    above derive from [Exception], so [except Exception] catches each. *)
Record exc := Exc { exc_cls : exc_class; exc_msg : string }.

Definition is_DSLQueryError (e : exc) : bool :=
  match exc_cls e with DSLQueryError => true | _ => false end.

Inductive result (A : Type) :=
| Ret (a : A)
| Raise (e : exc).
Arguments Ret {A} a.
Arguments Raise {A} e.

(** ** Calls to the host and to the parsing library *)

Inductive event :=
| EvCheckAccess (action : string) (context data : gmap string pyval)
| EvDatastoreSearch (context data : gmap string pyval)
| EvGetParser (read_url table_name : pyval) (engine_params : gmap string pyval)
| EvRawFields
| EvGetDatasByPayload (payload : pyval).

(** A computation: the calls it made, in order, and how it ended. *)
Definition M (A : Type) : Type := list event * result A.

Definition calls {A} (m : M A) : list event := m.1.
Definition outcome {A} (m : M A) : result A := m.2.

#[global] Instance M_ret : MRet M := λ A a, ([], Ret a).
Definition raise {A} (e : exc) : M A := ([], Raise e).

#[global] Instance M_bind : MBind M := λ A B k m,
  match m with
  | (t, Ret a) => let '(t', r) := k a in (t ++ t', r)
  | (t, Raise e) => (t, Raise e)
  end.

(** [try: m  except Exception as e: handler e]. *)
Definition try_except {A} (m : M A) (handler : exc → M A) : M A :=
  match m with
  | (t, Ret a) => (t, Ret a)
  | (t, Raise e) => let '(t', r) := handler e in (t ++ t', r)
  end.

(** One call to the outside, recorded. *)
Definition call {A} (ev : event) (r : result A) : M A := ([ev], r).

(** ** Data handed back by the host and the parsing library *)

(** One column as the parser describes it in [raw_fields]: the dictionary
    [{"fid": .., "name": .., <other keys>}]. *)
Record field := Field {
  fid : string;
  name : string;
  attrs : gmap string pyval
}.

(** [{**field, "name": n}]. *)
Definition with_name (f : field) (n : string) : field :=
  {| fid := fid f; name := n; attrs := attrs f |}.

(** The dictionary a [field] stands for. *)
Definition field_dict (f : field) : gmap string pyval :=
  <["fid" := PStr (fid f)]> (<["name" := PStr (name f)]> (attrs f)).

(** One entry of the ["fields"] list of a [datastore_search] result:
    [{"id": .., "info": {"label": .., ...}}], the ["info"] key optional. *)
Record ds_field := DsField {
  ds_id : string;
  ds_info : option (gmap string string)
}.

(** A [datastore_search] result; [None] when it has no ["fields"] key. *)
Record ds_result := DsResult { ds_fields : option (list ds_field) }.

(** The table parser object of the parsing library. *)
Record parser := Parser {
  raw_fields : result (list field);
  get_datas_by_payload : pyval → result (list (gmap string pyval))
}.

(** The world the plugin runs in. [connector_get_parser] stands for
    [Connector(read_url, f'select * from "{adapt(table_name).adapted}"',
    engine_params=..)] followed by [get_parser(conn, ..)]: three library
    calls in a row inside one [try]. *)
Record host := Host {
  config : gmap string pyval;
  check_access :
    string → gmap string pyval → gmap string pyval → result unit;
  datastore_search :
    gmap string pyval → gmap string pyval → result ds_result;
  connector_get_parser :
    pyval → pyval → gmap string pyval → result parser
}.

(** [tk.config.get(key, dflt)]. *)
Definition config_get (h : host) (key : string) (dflt : pyval) : pyval :=
  dict_get_default (config h) key dflt.

(** ** actions.py *)

Definition COLUMNS_TO_EXCLUDE : list string := ["_id"; "id"; "_full_text"].
Definition DEFAULT_POOL_SIZE : Z := 15.
Definition DEFAULT_MAX_OVERFLOW : Z := 100.
Definition DEFAULT_POOL_RECYCLE : Z := 3600.

Record DSLService := { columns_to_exclude : list string }.

(** [DSLService.__init__]. *)
Definition DSLService_init : DSLService :=
  {| columns_to_exclude := COLUMNS_TO_EXCLUDE |}.

(** [k in self.columns_to_exclude]. *)
Definition excluded (self : DSLService) (k : string) : bool :=
  bool_decide (k ∈ columns_to_exclude self).

Definition _create_error_response (self : DSLService)
    (fld : string) (message : string) : gmap string pyval :=
  {[ "detail" :=
       PList [ PDict {[ "loc" := PList [PStr "query"; PStr fld];
                        "msg" := PStr message;
                        "type" := PStr "value_error.missing" ]} ] ]}.

(** The default of the [message] argument. *)
Definition field_required : string := "field required".

Definition _get_database_connection_params (self : DSLService) (h : host)
  : gmap string pyval :=
  {[ "pool_size" :=
       config_get h "ckanext.odn.dsl.pool_size" (PInt DEFAULT_POOL_SIZE);
     "max_overflow" :=
       config_get h "ckanext.odn.dsl.max_overflow" (PInt DEFAULT_MAX_OVERFLOW);
     "pool_recycle" :=
       config_get h "ckanext.odn.dsl.pool_recycle" (PInt DEFAULT_POOL_RECYCLE);
     "echo" := config_get h "ckanext.odn.dsl.echo" (PBool false);
     "echo_pool" := config_get h "ckanext.odn.dsl.echo_pool" (PBool false) ]}.

Definition _get_table_parser (self : DSLService) (h : host)
    (table_name : pyval) : M parser :=
  try_except
    (let read_url := config_get h "ckan.datastore.read_url" (PStr "") in
     if negb (truthy read_url)
     then raise (Exc DatabaseConnectionError "Database read URL not configured")
     else
       let params := _get_database_connection_params self h in
       call (EvGetParser read_url table_name params)
            (connector_get_parser h read_url table_name params))
    (λ e, raise (Exc DatabaseConnectionError
                     ("Database connection failed: " +:+ exc_msg e))).

(** The body of the [for field in fields] loop of [_get_name_title_map]. *)
Definition name_map_step (self : DSLService)
    (name_map : gmap string string) (f : ds_field) : gmap string string :=
  let field_id := ds_id f in
  if negb (excluded self field_id)
  then
    let label := default field_id (default ∅ (ds_info f) !! "label") in
    <[field_id := label]> name_map
  else name_map.

Definition _get_name_title_map (self : DSLService) (h : host)
    (table_name : pyval) : M (gmap string string) :=
  let context : gmap string pyval := {[ "ignore_auth" := PBool true ]} in
  let data : gmap string pyval :=
    {[ "resource_id" := table_name; "limit" := PInt 0 ]} in
  try_except
    (result ← call (EvDatastoreSearch context data)
                   (datastore_search h context data);
     let fields := default [] (ds_fields result) in
     mret (foldl (name_map_step self) ∅ fields))
    (λ _, mret ∅).

(** [sorted(l, key=lambda x: x["name"])]: a stable sort; strings compare by
    code point, which on UTF-8 text is the order of the bytes. *)
Fixpoint insert_by_name (x : field) (l : list field) : list field :=
  match l with
  | [] => [x]
  | y :: l' =>
      if String.leb (name x) (name y) then x :: y :: l'
      else y :: insert_by_name x l'
  end.

Definition sorted_by_name (l : list field) : list field :=
  foldr insert_by_name [] l.

(** The list comprehension of [get_table_metadata]. *)
Definition filter_fields (self : DSLService)
    (name_title_map : gmap string string) (result : list field) : list field :=
  (λ f, with_name f (default (fid f) (name_title_map !! fid f)))
    <$> filter (λ f, negb (excluded self (fid f)) = true) result.

Definition get_table_metadata (self : DSLService) (h : host)
    (table_name : pyval) (sort : bool) : M (list field) :=
  try_except
    (table_parser ← _get_table_parser self h table_name;
     name_title_map ← _get_name_title_map self h table_name;
     result ← call EvRawFields (raw_fields table_parser);
     let filtered_result := filter_fields self name_title_map result in
     mret (if sort then sorted_by_name filtered_result else filtered_result))
    (λ _, mret []).

(** The dictionary comprehension over [row.items()]. *)
Definition filter_row (self : DSLService) (row : gmap string pyval)
  : gmap string pyval :=
  filter (λ kv, negb (excluded self kv.1) = true) row.

(** [json.loads(json.dumps(rows, cls=DataFrameEncoder))]. A [pyval] is a
    native JSON value with string keys, so the encoder's [default] hook is
    never called and the text parses back to the value it was written
    from. *)
Definition json_round_trip (rows : list (gmap string pyval))
  : M (list (gmap string pyval)) :=
  mret rows.

Definition get_data_from_payload (self : DSLService) (h : host)
    (table_name : pyval) (payload : pyval) : M (list (gmap string pyval)) :=
  try_except
    (table_parser ← _get_table_parser self h table_name;
     result ← call (EvGetDatasByPayload payload)
                   (get_datas_by_payload table_parser payload);
     let filtered_response := filter_row self <$> result in
     json_round_trip filtered_response)
    (λ e, raise (Exc DSLQueryError ("Query execution failed: " +:+ exc_msg e))).

Definition schema_value (fields_meta : list field) : pyval :=
  PList ((λ f, PDict (field_dict f)) <$> fields_meta).

Definition show_metadata (self : DSLService) (h : host)
    (resource_id : pyval) (sort : bool) : M (gmap string pyval) :=
  if negb (truthy resource_id)
  then mret (_create_error_response self "resourceID" field_required)
  else
    try_except
      (fields_meta ← get_table_metadata self h resource_id sort;
       mret {[ "success" := PBool true;
               "schema" := schema_value fields_meta;
               "name" := resource_id;
               "resource_id" := resource_id;
               "message" := PStr "" ]})
      (λ e, mret {[ "success" := PBool false;
                    "schema" := PList [];
                    "name" := resource_id;
                    "resource_id" := resource_id;
                    "message" :=
                      PStr ("Error fetching metadata: " +:+ exc_msg e) ]}).

Definition query_data (self : DSLService) (h : host)
    (resource_id : pyval) (payload : pyval) : M (gmap string pyval) :=
  if negb (truthy resource_id)
  then mret (_create_error_response self "resourceID" field_required)
  else if negb (truthy payload)
  then mret (_create_error_response self "payload" "payload field required")
  else
    try_except
      (data ← get_data_from_payload self h resource_id payload;
       mret {[ "success" := PBool true;
               "data" := PList (PDict <$> data);
               "message" := PStr "" ]})
      (λ e,
         if is_DSLQueryError e
         then mret {[ "success" := PBool false;
                      "data" := PNone;
                      "message" := PStr (exc_msg e) ]}
         else mret {[ "success" := PBool false;
                      "data" := PNone;
                      "message" :=
                        PStr ("Unexpected error: " +:+ exc_msg e) ]}).

(** The process-wide service instance. *)
Definition _dsl_service : DSLService := DSLService_init.

(** [v.lower()]: only a string has the method. *)
Definition py_lower (v : pyval) : M string :=
  match v with
  | PStr s => mret (str_lower s)
  | _ => raise (Exc AttributeError
                    ("'" +:+ py_type_name v
                         +:+ "' object has no attribute 'lower'"))
  end.

(** [tk.abort(status, detail)] raises the HTTP exception of that status. *)
Definition abort {A} (status : Z) (detail : string) : M A :=
  raise (Exc (HTTPException status) detail).

Definition show_dsl_metadata (h : host)
    (context data_dict : gmap string pyval) : M (gmap string pyval) :=
  let resource_id := dict_get data_dict "resourceID" in
  if negb (truthy resource_id)
  then abort 400 "resourceID field is required"
  else
    call (EvCheckAccess "resource_show" context {[ "id" := resource_id ]})
         (check_access h "resource_show" context {[ "id" := resource_id ]}) ;;
    lowered ← py_lower (dict_get_default data_dict "sort" (PStr "false"));
    let sort := String.eqb lowered "true" in
    show_metadata _dsl_service h resource_id sort.

Definition dsl_query_data (h : host)
    (context data_dict : gmap string pyval) : M (gmap string pyval) :=
  let resource_id := dict_get data_dict "resourceID" in
  call (EvCheckAccess "resource_show" context {[ "id" := resource_id ]})
       (check_access h "resource_show" context {[ "id" := resource_id ]}) ;;
  let payload := dict_get data_dict "payload" in
  query_data _dsl_service h resource_id payload.

(** ** plugin.py *)

(** The resource dictionary the host passes to [can_view], by the keys the
    predicate reads; [None] is an absent key. *)
Record resource := Resource {
  datastore_active : option pyval;
  url : option string;
  format : option string
}.

(** The [data_dict] of [can_view]; the host always supplies ["resource"]. *)
Record view_data := ViewData { view_resource : resource }.

Definition DATASTORE_ONLY_MARKER : string := "_datastore_only_resource".
Definition VIEWABLE_FORMATS : list string := ["csv"; "xls"; "xlsx"; "tsv"].

Definition can_view (data_dict : view_data) : bool :=
  let resource := view_resource data_dict in
  if truthy (default PNone (datastore_active resource))
     || str_contains DATASTORE_ONLY_MARKER (default "" (url resource))
  then true
  else
    match format resource with
    | Some resource_format =>
        if negb (String.eqb resource_format "")
        then bool_decide (str_lower resource_format ∈ VIEWABLE_FORMATS)
        else false
    | None => false
    end.

(** ** Sample worlds and requests *)

Module Samples.

Definition ctx : gmap string pyval := {[ "user" := PStr "alice" ]}.

Definition raw : list field :=
  [ Field "_id" "_id" {[ "semanticType" := PStr "quantitative" ]};
    Field "well" "well" {[ "offset" := PInt 0 ]};
    Field "depth" "depth" {[ "semanticType" := PStr "quantitative" ]};
    Field "_full_text" "_full_text" ∅;
    Field "basin" "basin" {[ "semanticType" := PStr "nominal" ]} ].

Definition rows : list (gmap string pyval) :=
  [ {[ "_id" := PInt 1; "depth" := PInt 30; "basin" := PStr "north";
       "_full_text" := PStr "x"; "well" := PStr "w1" ]};
    {[ "_id" := PInt 2; "id" := PInt 7; "depth" := PInt 12 ]} ].

Definition table : parser :=
  {| raw_fields := Ret raw;
     get_datas_by_payload := λ _, Ret rows |}.

Definition broken_table : parser :=
  {| raw_fields := Raise (Exc (OtherException "OperationalError") "no table");
     get_datas_by_payload :=
       λ _, Raise (Exc (OtherException "OperationalError") "no table") |}.

Definition search_result : ds_result :=
  {| ds_fields := Some
       [ DsField "_id" None;
         DsField "depth" (Some {[ "label" := "Depth (m)"; "notes" := "" ]});
         DsField "basin" (Some {[ "notes" := "catchment" ]});
         DsField "well" None ] |}.

Definition configured : gmap string pyval :=
  {[ "ckan.datastore.read_url" := PStr "postgresql://ro@db/datastore" ]}.

(** Everything works and everybody may read. *)
Definition open : host :=
  {| config := configured;
     check_access := λ _ _ _, Ret tt;
     datastore_search := λ _ _, Ret search_result;
     connector_get_parser := λ _ _ _, Ret table |}.

(** The authorization check refuses everybody. *)
Definition closed : host :=
  {| config := configured;
     check_access := λ _ _ _, Raise (Exc NotAuthorized "not authorized");
     datastore_search := λ _ _, Ret search_result;
     connector_get_parser := λ _ _ _, Ret table |}.

(** No read URL in the configuration. *)
Definition unconfigured : host :=
  {| config := ∅;
     check_access := λ _ _ _, Ret tt;
     datastore_search := λ _ _, Ret search_result;
     connector_get_parser := λ _ _ _, Ret table |}.

(** The database refuses the connection. *)
Definition offline : host :=
  {| config := configured;
     check_access := λ _ _ _, Ret tt;
     datastore_search := λ _ _, Ret search_result;
     connector_get_parser :=
       λ _ _ _, Raise (Exc (OtherException "OperationalError")
                           "connection refused") |}.

(** The table cannot be read once the parser exists. *)
Definition unreadable : host :=
  {| config := configured;
     check_access := λ _ _ _, Ret tt;
     datastore_search := λ _ _, Ret search_result;
     connector_get_parser := λ _ _ _, Ret broken_table |}.

(** [datastore_search] fails. *)
Definition unlabelled : host :=
  {| config := configured;
     check_access := λ _ _ _, Ret tt;
     datastore_search :=
       λ _ _, Raise (Exc ObjectNotFound "Resource was not found.");
     connector_get_parser := λ _ _ _, Ret table |}.

(** A table whose columns [a] and [b] carry the same label, and [c] one
    that sorts before it. *)
Definition twins : host :=
  {| config := configured;
     check_access := λ _ _ _, Ret tt;
     datastore_search :=
       λ _ _, Ret {| ds_fields := Some
                       [ DsField "a" (Some {[ "label" := "Value" ]});
                         DsField "b" (Some {[ "label" := "Value" ]});
                         DsField "c" (Some {[ "label" := "Key" ]}) ] |};
     connector_get_parser :=
       λ _ _ _, Ret {| raw_fields := Ret [ Field "a" "a" ∅; Field "b" "b" ∅;
                                           Field "c" "c" ∅ ];
                       get_datas_by_payload := λ _, Ret [] |} |}.

(** A table whose columns come in name order. *)
Definition ordered : host :=
  {| config := configured;
     check_access := λ _ _ _, Ret tt;
     datastore_search := λ _ _, Ret {| ds_fields := None |};
     connector_get_parser :=
       λ _ _ _, Ret {| raw_fields := Ret [ Field "a" "a" ∅; Field "b" "b" ∅ ];
                       get_datas_by_payload := λ _, Ret [] |} |}.

Definition no_data : gmap string pyval := ∅.
Definition only_id : gmap string pyval := {[ "resourceID" := PStr "r1" ]}.
Definition id_sort_string : gmap string pyval :=
  {[ "resourceID" := PStr "r1"; "sort" := PStr "True" ]}.
Definition id_sort_bool : gmap string pyval :=
  {[ "resourceID" := PStr "r1"; "sort" := PBool true ]}.
Definition id_payload : gmap string pyval :=
  {[ "resourceID" := PStr "r1";
     "payload" := PDict {[ "workflow" := PList [] ]} ]}.

(** What the metadata endpoint answers in [open] for [only_id]. *)
Definition metadata_reply : gmap string pyval :=
  {[ "success" := PBool true;
     "schema" :=
       PList [ PDict {[ "fid" := PStr "well"; "name" := PStr "well";
                        "offset" := PInt 0 ]};
               PDict {[ "fid" := PStr "depth"; "name" := PStr "Depth (m)";
                        "semanticType" := PStr "quantitative" ]};
               PDict {[ "fid" := PStr "basin"; "name" := PStr "basin";
                        "semanticType" := PStr "nominal" ]} ];
     "name" := PStr "r1";
     "resource_id" := PStr "r1";
     "message" := PStr "" ]}.

(** The same with the fields sorted by name. *)
Definition sorted_metadata_reply : gmap string pyval :=
  {[ "success" := PBool true;
     "schema" :=
       PList [ PDict {[ "fid" := PStr "depth"; "name" := PStr "Depth (m)";
                        "semanticType" := PStr "quantitative" ]};
               PDict {[ "fid" := PStr "basin"; "name" := PStr "basin";
                        "semanticType" := PStr "nominal" ]};
               PDict {[ "fid" := PStr "well"; "name" := PStr "well";
                        "offset" := PInt 0 ]} ];
     "name" := PStr "r1";
     "resource_id" := PStr "r1";
     "message" := PStr "" ]}.

(** What the query endpoint answers in [open] for [id_payload]. *)
Definition query_reply : gmap string pyval :=
  {[ "success" := PBool true;
     "data" :=
       PList [ PDict {[ "depth" := PInt 30; "basin" := PStr "north";
                        "well" := PStr "w1" ]};
               PDict {[ "depth" := PInt 12 ]} ];
     "message" := PStr "" ]}.

(** What the query endpoint answers in [offline] for [id_payload]. *)
Definition failed_query_reply : gmap string pyval :=
  {[ "success" := PBool false;
     "data" := PNone;
     "message" :=
       PStr ("Query execution failed: Database connection failed: "
             +:+ "connection refused") ]}.

End Samples.

(** ** Notions the statements use *)

(** The order [sorted] puts the fields in. *)
Definition name_le (x y : field) : Prop := String.leb (name x) (name y) = true.

(** The authorization check an endpoint makes for a request: its record in
    the list of calls, and what the host answers. *)
Definition auth_event (context data_dict : gmap string pyval) : event :=
  EvCheckAccess "resource_show" context
                {[ "id" := dict_get data_dict "resourceID" ]}.

Definition auth_check (h : host) (context data_dict : gmap string pyval)
  : result unit :=
  check_access h "resource_show" context
               {[ "id" := dict_get data_dict "resourceID" ]}.

(** The [datastore_search] lookup made for a table. *)
Definition label_lookup (h : host) (table_name : pyval) : result ds_result :=
  datastore_search h {[ "ignore_auth" := PBool true ]}
                   {[ "resource_id" := table_name; "limit" := PInt 0 ]}.

(** The label the field info of a [datastore_search] result holds for a
    column: that of the entry with this id (of the last one, should an id
    occur twice), if that entry has an ["info"] with a ["label"]. *)
Definition ds_label (fields : list ds_field) (column : string) : option string :=
  e ← last (filter (λ e, ds_id e = column) fields);
  info ← ds_info e;
  info !! "label".

(** The columns the parser reports for a table, in its order; none when the
    parser cannot be had or its [raw_fields] cannot be read. *)
Definition table_fields (h : host) (table_name : pyval) : list field :=
  match outcome (_get_table_parser _dsl_service h table_name) with
  | Ret p => match raw_fields p with Ret fs => fs | Raise _ => [] end
  | Raise _ => []
  end.

(** The label map [_get_name_title_map] hands back for a table. *)
Definition label_map (h : host) (table_name : pyval) : gmap string string :=
  match outcome (_get_name_title_map _dsl_service h table_name) with
  | Ret m => m
  | Raise _ => ∅
  end.

(** The fields of a table as the metadata endpoint lists them when it does
    not sort: the parser's columns but the excluded ones, in the parser's
    order, each under its name. *)
Definition listed_fields (h : host) (table_name : pyval) : list field :=
  filter_fields _dsl_service (label_map h table_name)
                (table_fields h table_name).

(** The success envelope of the metadata endpoint. *)
Definition metadata_envelope (resource_id : pyval) (fields_meta : list field)
  : gmap string pyval :=
  {[ "success" := PBool true;
     "schema" := schema_value fields_meta;
     "name" := resource_id;
     "resource_id" := resource_id;
     "message" := PStr "" ]}.

(** The records, in the list of calls, of the connection to a table and of
    the label lookup made for it. *)
Definition parser_event (h : host) (table_name : pyval) : event :=
  EvGetParser (config_get h "ckan.datastore.read_url" (PStr "")) table_name
              (_get_database_connection_params _dsl_service h).

Definition search_event (table_name : pyval) : event :=
  EvDatastoreSearch {[ "ignore_auth" := PBool true ]}
                    {[ "resource_id" := table_name; "limit" := PInt 0 ]}.

(** [s.startswith(p)]. *)
Definition starts_with (p s : string) : Prop := ∃ rest, s = p +:+ rest.

(** The columns of a table that carry a given name, in list order. *)
Definition named (n : string) (l : list field) : list field :=
  filter (λ f, name f = n) l.

(** The name C10 expects for a column of a table: the label found for it
    in the field info of the lookup, the column id when there is none or
    when the lookup raises. *)
Definition expected_name (h : host) (table_name : pyval) (column : string)
  : string :=
  match label_lookup h table_name with
  | Ret r => default column (ds_label (default [] (ds_fields r)) column)
  | Raise _ => column
  end.

(** ** The monad *)

Section monad.
Context {A B : Type}.

Lemma outcome_bind (m : M A) (k : A → M B) :
  outcome (m ≫= k)
  = match outcome m with Ret a => outcome (k a) | Raise e => Raise e end.
Proof.
  destruct m as [t [a|e]]; simpl; [|reflexivity].
  unfold outcome; simpl. destruct (k a); reflexivity.
Qed.

Lemma calls_bind (m : M A) (k : A → M B) :
  calls (m ≫= k)
  = match outcome m with
    | Ret a => calls m ++ calls (k a)
    | Raise _ => calls m
    end.
Proof.
  destruct m as [t [a|e]]; simpl; [|reflexivity].
  unfold calls; simpl. destruct (k a); reflexivity.
Qed.

Lemma outcome_try_except (m : M A) (handler : exc → M A) :
  outcome (try_except m handler)
  = match outcome m with Ret a => Ret a | Raise e => outcome (handler e) end.
Proof.
  destruct m as [t [a|e]]; simpl; [reflexivity|].
  unfold outcome; simpl. destruct (handler e); reflexivity.
Qed.

Lemma outcome_call (ev : event) (r : result A) : outcome (call ev r) = r.
Proof. reflexivity. Qed.

Lemma outcome_mret (a : A) : outcome (mret a : M A) = Ret a.
Proof. reflexivity. Qed.

Lemma outcome_raise (e : exc) : outcome (raise e : M A) = Raise e.
Proof. reflexivity. Qed.
End monad.

(** A handler that returns makes the whole [try] return. *)
Lemma try_except_returns {A} (m : M A) (handler : exc → M A) :
  (∀ e, ∃ a, outcome (handler e) = Ret a) →
  ∃ a, outcome (try_except m handler) = Ret a.
Proof.
  intros Hh. rewrite outcome_try_except.
  destruct (outcome m) as [a|e]; [by exists a | apply Hh].
Qed.

(** ** Strings *)

Lemma prefix_app (p s : string) :
  String.prefix p s = true ↔ ∃ post, s = p +:+ post.
Proof.
  revert s. induction p as [|c p IH]; intros s; simpl.
  - destruct s; split; eauto.
  - destruct s as [|c' s]; simpl.
    + split; [done | intros [post ?]; done].
    + destruct (Ascii.ascii_dec c c') as [->|Hne].
      * rewrite IH. split; intros [post Hp]; exists post.
        -- by rewrite Hp.
        -- by injection Hp.
      * split; [done | intros [post Hp]]. injection Hp as ? ?. done.
Qed.

(** [str_contains] is the substring test. *)
Lemma str_contains_spec (needle hay : string) :
  str_contains needle hay = true
  ↔ ∃ pre post, hay = pre +:+ needle +:+ post.
Proof.
  induction hay as [|c hay IH]; cbn [str_contains].
  - rewrite orb_false_r, prefix_app. split.
    + intros [post ->]. by exists "", post.
    + intros (pre & post & Hp). destruct pre; [by exists post | done].
  - rewrite orb_true_iff, prefix_app, IH. split.
    + intros [[post Hp]|(pre & post & ->)].
      * by exists "", post.
      * by exists (String c pre), post.
    + intros (pre & post & Hp). destruct pre as [|c' pre]; simpl in Hp.
      * left. by exists post.
      * right. injection Hp as -> ->. by exists pre, post.
Qed.

(** ** Sorting by name *)

Lemma insert_by_name_perm (x : field) (l : list field) :
  insert_by_name x l ≡ₚ x :: l.
Proof.
  induction l as [|y l IH]; simpl; [done|].
  destruct (String.leb (name x) (name y)); [done|].
  rewrite IH. apply Permutation_swap.
Qed.

Lemma sorted_by_name_perm (l : list field) : sorted_by_name l ≡ₚ l.
Proof.
  induction l as [|x l IH]; simpl; [done|].
  unfold sorted_by_name in *; simpl.
  by rewrite insert_by_name_perm, IH.
Qed.

Lemma insert_by_name_sorted (x : field) (l : list field) :
  Sorted name_le l → Sorted name_le (insert_by_name x l).
Proof.
  induction 1 as [|y l Hs IH Hhd]; simpl.
  - by repeat constructor.
  - destruct (String.leb (name x) (name y)) eqn:Hxy.
    + constructor; [by constructor|]. by constructor.
    + constructor; [done|].
      assert (name_le y x) as Hyx.
      { destruct (String.leb_total (name x) (name y)); [congruence | done]. }
      destruct Hhd as [|z l Hyz]; simpl; [by constructor|].
      destruct (String.leb (name x) (name z)); by constructor.
Qed.

Lemma sorted_by_name_sorted (l : list field) :
  Sorted name_le (sorted_by_name l).
Proof.
  induction l as [|x l IH]; [constructor|].
  by apply insert_by_name_sorted.
Qed.

(** ** The service methods, one by one *)

Section service.
Variable self : DSLService.
Variable h : host.

Let read_url := config_get h "ckan.datastore.read_url" (PStr "").
Let params := _get_database_connection_params self h.

(** How [_get_table_parser] ends. *)
Lemma get_table_parser_outcome (table_name : pyval) :
  outcome (_get_table_parser self h table_name)
  = if truthy read_url
    then match connector_get_parser h read_url table_name params with
         | Ret p => Ret p
         | Raise e =>
             Raise (Exc DatabaseConnectionError
                        ("Database connection failed: " +:+ exc_msg e))
         end
    else Raise (Exc DatabaseConnectionError
                    ("Database connection failed: "
                     +:+ "Database read URL not configured")).
Proof.
  unfold _get_table_parser. rewrite outcome_try_except.
  fold read_url params. destruct (truthy read_url); simpl; [|reflexivity].
  destruct (connector_get_parser h read_url table_name params); reflexivity.
Qed.

(** Whatever goes wrong there surfaces as a [DatabaseConnectionError]. *)
Lemma get_table_parser_raises (table_name : pyval) (e : exc) :
  outcome (_get_table_parser self h table_name) = Raise e →
  exc_cls e = DatabaseConnectionError.
Proof.
  rewrite get_table_parser_outcome.
  destruct (truthy read_url);
    [destruct (connector_get_parser h read_url table_name params)|];
    intros [= <-]; reflexivity.
Qed.

(** [_get_name_title_map] always returns; a failing lookup gives [∅]. *)
Lemma get_name_title_map_outcome (table_name : pyval) :
  outcome (_get_name_title_map self h table_name)
  = Ret match label_lookup h table_name with
        | Ret r => foldl (name_map_step self) ∅ (default [] (ds_fields r))
        | Raise _ => ∅
        end.
Proof.
  unfold _get_name_title_map, label_lookup.
  rewrite outcome_try_except, outcome_bind, outcome_call.
  by destruct (datastore_search h _ _).
Qed.

(** [get_table_metadata] always returns: the fields when the parser and its
    [raw_fields] are there, the empty list when either fails. *)
Lemma get_table_metadata_outcome (table_name : pyval) (sort : bool) :
  outcome (get_table_metadata self h table_name sort)
  = Ret match outcome (_get_table_parser self h table_name) with
        | Ret p =>
            match raw_fields p,
                  outcome (_get_name_title_map self h table_name) with
            | Ret fs, Ret m =>
                let l := filter_fields self m fs in
                if sort then sorted_by_name l else l
            | _, _ => []
            end
        | Raise _ => []
        end.
Proof.
  unfold get_table_metadata. rewrite outcome_try_except, outcome_bind.
  destruct (outcome (_get_table_parser self h table_name)) as [p|e];
    [|reflexivity].
  rewrite outcome_bind, get_name_title_map_outcome, outcome_bind, outcome_call.
  by destruct (raw_fields p).
Qed.

(** With an identifier, [show_metadata] always reports success. *)
Lemma show_metadata_outcome (resource_id : pyval) (sort : bool) :
  truthy resource_id = true →
  ∃ fields_meta,
    outcome (get_table_metadata self h resource_id sort) = Ret fields_meta
    ∧ outcome (show_metadata self h resource_id sort)
      = Ret {[ "success" := PBool true;
               "schema" := schema_value fields_meta;
               "name" := resource_id;
               "resource_id" := resource_id;
               "message" := PStr "" ]}.
Proof.
  intros Hid. unfold show_metadata. rewrite Hid; simpl.
  rewrite outcome_try_except, outcome_bind, get_table_metadata_outcome.
  eexists; split; reflexivity.
Qed.

(** How [get_data_from_payload] ends. *)
Lemma get_data_from_payload_outcome (table_name payload : pyval) :
  outcome (get_data_from_payload self h table_name payload)
  = match outcome (_get_table_parser self h table_name) with
    | Ret p =>
        match get_datas_by_payload p payload with
        | Ret rows => Ret (filter_row self <$> rows)
        | Raise e =>
            Raise (Exc DSLQueryError
                       ("Query execution failed: " +:+ exc_msg e))
        end
    | Raise e =>
        Raise (Exc DSLQueryError ("Query execution failed: " +:+ exc_msg e))
    end.
Proof.
  unfold get_data_from_payload. rewrite outcome_try_except, outcome_bind.
  destruct (outcome (_get_table_parser self h table_name)) as [p|e];
    [|reflexivity].
  rewrite outcome_bind, outcome_call.
  by destruct (get_datas_by_payload p payload).
Qed.

(** The three ways [query_data] ends once both arguments are there. *)
Lemma query_data_outcome (resource_id payload : pyval) :
  truthy resource_id = true → truthy payload = true →
  outcome (query_data self h resource_id payload)
  = match outcome (get_data_from_payload self h resource_id payload) with
    | Ret data =>
        Ret {[ "success" := PBool true;
               "data" := PList (PDict <$> data);
               "message" := PStr "" ]}
    | Raise e =>
        Ret {[ "success" := PBool false;
               "data" := PNone;
               "message" := PStr (exc_msg e) ]}
    end.
Proof.
  intros Hid Hp. unfold query_data. rewrite Hid, Hp; simpl.
  rewrite outcome_try_except, outcome_bind.
  pose proof (get_data_from_payload_outcome resource_id payload) as Hd.
  destruct (outcome (get_data_from_payload self h resource_id payload))
    as [data|e]; [reflexivity|].
  assert (is_DSLQueryError e = true) as ->; [|reflexivity].
  destruct (outcome (_get_table_parser self h resource_id)) as [p|e'];
    [destruct (get_datas_by_payload p payload)|];
    try discriminate; by injection Hd as ->.
Qed.

(** [query_data] never raises. *)
Lemma query_data_returns (resource_id payload : pyval) :
  ∃ resp, outcome (query_data self h resource_id payload) = Ret resp.
Proof.
  destruct (truthy resource_id) eqn:Hid; [|].
  - destruct (truthy payload) eqn:Hp.
    + rewrite query_data_outcome by done.
      destruct (outcome (get_data_from_payload _ _ _ _)); eauto.
    + unfold query_data. rewrite Hid, Hp. eauto.
  - unfold query_data. rewrite Hid. eauto.
Qed.
End service.

(** ** The two endpoints *)

(** The missing-field envelope has the one key ["detail"]. *)
Lemma create_error_response_keys (self : DSLService) (fld message : string) :
  _create_error_response self fld message !! "detail"
  = Some (PList [ PDict {[ "loc" := PList [PStr "query"; PStr fld];
                           "msg" := PStr message;
                           "type" := PStr "value_error.missing" ]} ])
  ∧ ∀ k, k ≠ "detail" → _create_error_response self fld message !! k = None.
Proof.
  unfold _create_error_response. split.
  - apply lookup_singleton_eq.
  - intros k Hk. by apply lookup_singleton_ne.
Qed.

Section endpoints.
Variable h : host.
Variables context data_dict : gmap string pyval.

Let resource_id := dict_get data_dict "resourceID".
Let payload := dict_get data_dict "payload".

(** The query endpoint: the authorization check, then [query_data]. *)
Lemma dsl_query_data_run :
  dsl_query_data h context data_dict
  = match auth_check h context data_dict with
    | Ret _ =>
        (auth_event context data_dict
           :: calls (query_data _dsl_service h resource_id payload),
         outcome (query_data _dsl_service h resource_id payload))
    | Raise e => ([auth_event context data_dict], Raise e)
    end.
Proof.
  unfold dsl_query_data, auth_check, auth_event.
  fold resource_id payload.
  destruct (check_access h _ _ _) as [[]|e]; simpl; [|reflexivity].
  by destruct (query_data _dsl_service h resource_id payload).
Qed.

(** The metadata endpoint: the guard, the authorization check, the sort
    flag, then [show_metadata]. *)
Lemma show_dsl_metadata_outcome :
  outcome (show_dsl_metadata h context data_dict)
  = if truthy resource_id
    then match auth_check h context data_dict with
         | Ret _ =>
             match dict_get_default data_dict "sort" (PStr "false") with
             | PStr s =>
                 outcome (show_metadata _dsl_service h resource_id
                                        (String.eqb (str_lower s) "true"))
             | v => Raise (Exc AttributeError
                               ("'" +:+ py_type_name v
                                +:+ "' object has no attribute 'lower'"))
             end
         | Raise e => Raise e
         end
    else Raise (Exc (HTTPException 400) "resourceID field is required").
Proof.
  unfold show_dsl_metadata, auth_check. fold resource_id.
  destruct (truthy resource_id); cbn [negb]; [|reflexivity].
  rewrite outcome_bind, outcome_call.
  destruct (check_access h _ _ _) as [[]|e]; [|reflexivity].
  rewrite outcome_bind.
  by destruct (dict_get_default data_dict "sort" (PStr "false")).
Qed.

(** Whenever the metadata endpoint returns, it reports success. *)
Lemma show_dsl_metadata_returns (resp : gmap string pyval) :
  outcome (show_dsl_metadata h context data_dict) = Ret resp →
  ∃ sort fields_meta,
    outcome (get_table_metadata _dsl_service h resource_id sort)
    = Ret fields_meta
    ∧ resp = {[ "success" := PBool true;
                "schema" := schema_value fields_meta;
                "name" := resource_id;
                "resource_id" := resource_id;
                "message" := PStr "" ]}.
Proof.
  rewrite show_dsl_metadata_outcome.
  destruct (truthy resource_id) eqn:Hid; [|done].
  destruct (auth_check h context data_dict); [|done].
  destruct (dict_get_default data_dict "sort" (PStr "false")); try done.
  intros Hresp.
  destruct (show_metadata_outcome _dsl_service h resource_id
              (String.eqb (str_lower s) "true") Hid) as (fm & Hfm & Hout).
  exists (String.eqb (str_lower s) "true"), fm. split; [done|].
  rewrite Hout in Hresp. by injection Hresp.
Qed.
End endpoints.

(** ** A request without a resource identifier *)

(** C1, as amended. For a request whose [resourceID] is absent or falsy:
    the metadata endpoint aborts with HTTP 400 "resourceID field is
    required" without calling the host; the query endpoint returns the
    missing-field envelope for [resourceID] whenever the host's authorization
    check, the one call it makes, does not raise. *)
Theorem missing_resource_id (h : host) (context data_dict : gmap string pyval) :
  truthy (dict_get data_dict "resourceID") = false →
  show_dsl_metadata h context data_dict
  = ([], Raise (Exc (HTTPException 400) "resourceID field is required"))
  ∧ (auth_check h context data_dict = Ret tt →
     dsl_query_data h context data_dict
     = ([auth_event context data_dict],
        Ret {[ "detail" :=
                 PList [ PDict {[ "loc" := PList [PStr "query";
                                                   PStr "resourceID"];
                                  "msg" := PStr "field required";
                                  "type" := PStr "value_error.missing" ]} ] ]})).
Proof.
  intros Hid. split.
  - unfold show_dsl_metadata. by rewrite Hid.
  - intros Hauth. rewrite dsl_query_data_run, Hauth.
    unfold query_data. by rewrite Hid.
Qed.

Lemma missing_resource_id_witness :
  truthy (dict_get Samples.no_data "resourceID") = false
  ∧ auth_check Samples.open Samples.ctx Samples.no_data = Ret tt
  ∧ show_dsl_metadata Samples.open Samples.ctx Samples.no_data
    = ([], Raise (Exc (HTTPException 400) "resourceID field is required"))
  ∧ outcome (dsl_query_data Samples.open Samples.ctx Samples.no_data)
    = Ret (_create_error_response _dsl_service "resourceID" field_required).
Proof.
  destruct (missing_resource_id Samples.open Samples.ctx Samples.no_data)
    as [Hmeta Hquery]; [reflexivity|].
  split; [reflexivity|]. split; [reflexivity|]. split; [exact Hmeta|].
  rewrite Hquery; reflexivity.
Defined.

(** C1 as first stated fails: with no [resourceID] the metadata endpoint
    raises the HTTP 400 abort; it returns no envelope of any kind. *)
Lemma missing_resource_id_metadata_aborts :
  truthy (dict_get Samples.no_data "resourceID") = false
  ∧ outcome (show_dsl_metadata Samples.open Samples.ctx Samples.no_data)
    = Raise (Exc (HTTPException 400) "resourceID field is required")
  ∧ ¬ ∃ resp,
        outcome (show_dsl_metadata Samples.open Samples.ctx Samples.no_data)
        = Ret resp.
Proof.
  split; [reflexivity|]. split; [reflexivity|].
  intros [resp Hresp]. discriminate Hresp.
Qed.

(** ** A query without a payload *)

(** C6, as amended. For a request with a resource identifier and no (or an
    empty) payload, the query endpoint returns the missing-field envelope
    for [payload] whenever the host's authorization check does not raise;
    the check is the only call made. *)
Theorem missing_payload (h : host) (context data_dict : gmap string pyval) :
  truthy (dict_get data_dict "resourceID") = true →
  truthy (dict_get data_dict "payload") = false →
  auth_check h context data_dict = Ret tt →
  dsl_query_data h context data_dict
  = ([auth_event context data_dict],
     Ret {[ "detail" :=
              PList [ PDict {[ "loc" := PList [PStr "query"; PStr "payload"];
                               "msg" := PStr "payload field required";
                               "type" := PStr "value_error.missing" ]} ] ]}).
Proof.
  intros Hid Hp Hauth. rewrite dsl_query_data_run, Hauth.
  unfold query_data. by rewrite Hid, Hp.
Qed.

Lemma missing_payload_witness :
  truthy (dict_get Samples.only_id "resourceID") = true
  ∧ truthy (dict_get Samples.only_id "payload") = false
  ∧ auth_check Samples.open Samples.ctx Samples.only_id = Ret tt
  ∧ outcome (dsl_query_data Samples.open Samples.ctx Samples.only_id)
    = Ret (_create_error_response _dsl_service "payload"
                                  "payload field required").
Proof.
  split; [reflexivity|]. split; [reflexivity|]. split; [reflexivity|].
  rewrite (missing_payload Samples.open Samples.ctx Samples.only_id);
    reflexivity.
Defined.

(** C6 as first stated fails: a caller the host does not authorize gets the
    host's fault, not the envelope, although the request has a resource
    identifier and no payload. *)
Lemma missing_payload_unauthorized :
  truthy (dict_get Samples.only_id "resourceID") = true
  ∧ truthy (dict_get Samples.only_id "payload") = false
  ∧ outcome (dsl_query_data Samples.closed Samples.ctx Samples.only_id)
    = Raise (Exc NotAuthorized "not authorized")
  ∧ ¬ ∃ resp,
        outcome (dsl_query_data Samples.closed Samples.ctx Samples.only_id)
        = Ret resp.
Proof.
  repeat split. intros [resp Hresp]. discriminate Hresp.
Qed.

(** ** The authorization check comes first *)

(** C9. On every request the query endpoint first calls the host's
    [resource_show] check with [{"id": data_dict.get("resourceID")}], which
    is [{"id": None}] when the key is absent; if the check raises, that fault
    is the outcome and nothing else was called or validated; so a
    missing-field envelope comes back only when the check did not raise. *)
Theorem query_checks_access_first
    (h : host) (context data_dict : gmap string pyval) :
  (∃ rest,
     calls (dsl_query_data h context data_dict)
     = EvCheckAccess "resource_show" context
                     {[ "id" := default PNone (data_dict !! "resourceID") ]}
       :: rest)
  ∧ (data_dict !! "resourceID" = None →
     auth_event context data_dict
     = EvCheckAccess "resource_show" context {[ "id" := PNone ]})
  ∧ (∀ e,
       check_access h "resource_show" context
                    {[ "id" := default PNone (data_dict !! "resourceID") ]}
       = Raise e →
       dsl_query_data h context data_dict
       = ([auth_event context data_dict], Raise e))
  ∧ (∀ fld message,
       outcome (dsl_query_data h context data_dict)
       = Ret (_create_error_response _dsl_service fld message) →
       check_access h "resource_show" context
                    {[ "id" := default PNone (data_dict !! "resourceID") ]}
       = Ret tt).
Proof.
  rewrite dsl_query_data_run. unfold auth_check, auth_event, dict_get.
  split; [|split; [|split]].
  - destruct (check_access h _ _ _); eauto.
  - by intros ->.
  - by intros e ->.
  - intros fld message. by destruct (check_access h _ _ _) as [[]|e].
Qed.

Lemma query_checks_access_first_witness :
  calls (dsl_query_data Samples.closed Samples.ctx Samples.no_data)
  = [EvCheckAccess "resource_show" Samples.ctx {[ "id" := PNone ]}]
  ∧ outcome (dsl_query_data Samples.closed Samples.ctx Samples.no_data)
    = Raise (Exc NotAuthorized "not authorized")
  ∧ check_access Samples.open "resource_show" Samples.ctx {[ "id" := PNone ]}
    = Ret tt.
Proof.
  destruct (query_checks_access_first Samples.closed Samples.ctx
              Samples.no_data) as (_ & _ & Hraise & _).
  destruct (query_checks_access_first Samples.open Samples.ctx
              Samples.no_data) as (_ & _ & _ & Henv).
  rewrite (Hraise (Exc NotAuthorized "not authorized")) by reflexivity.
  split; [reflexivity|]. split; [reflexivity|].
  apply (Henv "resourceID" field_required). reflexivity.
Defined.

(** ** The success flag *)

(** C7, as amended. Every envelope the metadata endpoint returns has a
    boolean ["success"] key. An envelope the query endpoint returns either
    has a boolean ["success"] key or is the missing-field envelope for
    [resourceID] or for [payload], returned when that field is absent or
    falsy; the missing-field envelope has the key ["detail"] and no
    ["success"] key. *)
Theorem success_flag
    (h : host) (context data_dict resp : gmap string pyval) :
  (outcome (show_dsl_metadata h context data_dict) = Ret resp →
   ∃ b, resp !! "success" = Some (PBool b))
  ∧ (outcome (dsl_query_data h context data_dict) = Ret resp →
     (∃ b, resp !! "success" = Some (PBool b))
     ∨ (resp !! "success" = None
        ∧ ((truthy (dict_get data_dict "resourceID") = false
            ∧ resp = _create_error_response _dsl_service "resourceID"
                                            "field required")
           ∨ (truthy (dict_get data_dict "payload") = false
              ∧ resp = _create_error_response _dsl_service "payload"
                                              "payload field required")))).
Proof.
  split.
  - intros Hresp.
    apply show_dsl_metadata_returns in Hresp as (sort & fm & _ & ->).
    exists true. apply lookup_insert_eq.
  - rewrite dsl_query_data_run.
    destruct (auth_check h context data_dict); [|done].
    cbn [outcome snd]. intros Hresp.
    destruct (truthy (dict_get data_dict "resourceID")) eqn:Hid.
    + destruct (truthy (dict_get data_dict "payload")) eqn:Hp.
      * left. rewrite query_data_outcome in Hresp by done.
        destruct (outcome (get_data_from_payload _ _ _ _));
          injection Hresp as <-; eexists; apply lookup_insert_eq.
      * right. unfold query_data in Hresp. rewrite Hid, Hp in Hresp.
        injection Hresp as <-. split; [|by right].
        by apply create_error_response_keys.
    + right. unfold query_data in Hresp. rewrite Hid in Hresp.
      injection Hresp as <-. split; [|by left].
      by apply create_error_response_keys.
Qed.

Lemma success_flag_witness :
  (∃ b, Samples.metadata_reply !! "success" = Some (PBool b))
  ∧ (∃ b, Samples.failed_query_reply !! "success" = Some (PBool b)).
Proof.
  split.
  - apply (success_flag Samples.open Samples.ctx Samples.only_id
             Samples.metadata_reply).
    reflexivity.
  - destruct (success_flag Samples.offline Samples.ctx Samples.id_payload
                Samples.failed_query_reply) as [_ Hquery].
    destruct Hquery as [Hflag|[Habsent _]]; [reflexivity | exact Hflag |].
    discriminate Habsent.
Defined.

(** C7 as first stated fails: the envelope the query endpoint returns for a
    request with a [resourceID] and no [payload] has no ["success"] key. *)
Lemma success_flag_absent :
  outcome (dsl_query_data Samples.open Samples.ctx Samples.only_id)
  = Ret {[ "detail" :=
             PList [ PDict {[ "loc" := PList [PStr "query"; PStr "payload"];
                              "msg" := PStr "payload field required";
                              "type" := PStr "value_error.missing" ]} ] ]}
  ∧ ∀ resp,
      outcome (dsl_query_data Samples.open Samples.ctx Samples.only_id)
      = Ret resp →
      resp !! "success" = None.
Proof. split; [reflexivity|]. by intros resp [= <-]. Qed.

(** ** Internal failures *)

(** C2, evaluated where it breaks. With no read URL configured
    [_get_table_parser] raises a [DatabaseConnectionError];
    [get_table_metadata] swallows it and returns the empty list, so the
    metadata endpoint answers ["success": true] with an empty schema and an
    empty message; the [success: false] branch of [show_metadata] is never
    taken. A refused connection and an unreadable table end the same way. *)
Theorem metadata_failure_reported_as_success :
  truthy (dict_get Samples.only_id "resourceID") = true
  ∧ outcome (_get_table_parser _dsl_service Samples.unconfigured (PStr "r1"))
    = Raise (Exc DatabaseConnectionError
                 ("Database connection failed: "
                  +:+ "Database read URL not configured"))
  ∧ outcome (get_table_metadata _dsl_service Samples.unconfigured
                                (PStr "r1") false)
    = Ret []
  ∧ outcome (show_dsl_metadata Samples.unconfigured Samples.ctx
                               Samples.only_id)
    = Ret {[ "success" := PBool true;
             "schema" := PList [];
             "name" := PStr "r1";
             "resource_id" := PStr "r1";
             "message" := PStr "" ]}
  ∧ outcome (show_dsl_metadata Samples.offline Samples.ctx Samples.only_id)
    = outcome (show_dsl_metadata Samples.unconfigured Samples.ctx
                                 Samples.only_id)
  ∧ outcome (show_dsl_metadata Samples.unreadable Samples.ctx Samples.only_id)
    = outcome (show_dsl_metadata Samples.unconfigured Samples.ctx
                                 Samples.only_id).
Proof. repeat split. Qed.

(** C3, as amended. A [DatabaseConnectionError] or [DSLQueryError] raised
    inside the query path is caught and turned into an envelope with
    ["success": false] that carries its message. The query endpoint lets no
    fault through but one raised by the host's authorization check. The
    metadata endpoint lets through, besides that one, only its own HTTP 400
    abort for a missing [resourceID] and the [AttributeError] of a [sort]
    value that is not a string; neither of the two error classes leaves
    it. *)
Theorem internal_errors_stay_inside
    (h : host) (context data_dict : gmap string pyval) :
  (∀ e, outcome (dsl_query_data h context data_dict) = Raise e →
        auth_check h context data_dict = Raise e)
  ∧ (∀ e, outcome (show_dsl_metadata h context data_dict) = Raise e →
          auth_check h context data_dict = Raise e
          ∨ (truthy (dict_get data_dict "resourceID") = false
             ∧ e = Exc (HTTPException 400) "resourceID field is required")
          ∨ (exc_cls e = AttributeError
             ∧ ∃ v, data_dict !! "sort" = Some v ∧ ∀ s, v ≠ PStr s))
  ∧ (auth_check h context data_dict = Ret tt →
     truthy (dict_get data_dict "resourceID") = true →
     truthy (dict_get data_dict "payload") = true →
     (∀ e, outcome (_get_table_parser _dsl_service h
                      (dict_get data_dict "resourceID")) = Raise e →
           exc_cls e = DatabaseConnectionError
           ∧ outcome (dsl_query_data h context data_dict)
             = Ret {[ "success" := PBool false;
                      "data" := PNone;
                      "message" := PStr ("Query execution failed: "
                                         +:+ exc_msg e) ]})
     ∧ (∀ e, outcome (get_data_from_payload _dsl_service h
                        (dict_get data_dict "resourceID")
                        (dict_get data_dict "payload")) = Raise e →
             exc_cls e = DSLQueryError
             ∧ outcome (dsl_query_data h context data_dict)
               = Ret {[ "success" := PBool false;
                        "data" := PNone;
                        "message" := PStr (exc_msg e) ]})).
Proof.
  split; [|split].
  - intros e. rewrite dsl_query_data_run.
    destruct (auth_check h context data_dict) as [[]|e']; cbn [outcome snd].
    + destruct (query_data_returns _dsl_service h
                  (dict_get data_dict "resourceID")
                  (dict_get data_dict "payload")) as [resp ->]. done.
    + by intros [= ->].
  - intros e. rewrite show_dsl_metadata_outcome.
    destruct (truthy (dict_get data_dict "resourceID")) eqn:Hid.
    + destruct (auth_check h context data_dict) as [[]|e'];
        [|intros [= ->]; by left].
      unfold dict_get_default.
      destruct (data_dict !! "sort") as [v|] eqn:Hsort; cbn [from_option id].
      * destruct v;
          try (intros [= <-]; right; right; split; [done|];
               eexists; split; [done|]; discriminate).
        destruct (show_metadata_outcome _dsl_service h
                    (dict_get data_dict "resourceID")
                    (String.eqb (str_lower s) "true") Hid) as (? & _ & ->).
        done.
      * destruct (show_metadata_outcome _dsl_service h
                    (dict_get data_dict "resourceID")
                    (String.eqb (str_lower "false") "true") Hid)
          as (? & _ & ->). done.
    + intros [= <-]. right; left. done.
  - intros Hauth Hid Hp.
    rewrite dsl_query_data_run, Hauth. cbn [outcome snd].
    rewrite query_data_outcome, get_data_from_payload_outcome by done.
    split.
    + intros e He. split; [by eapply get_table_parser_raises|].
      by rewrite He.
    + intros e.
      destruct (outcome (_get_table_parser _ _ _)) as [p|e'];
        [destruct (get_datas_by_payload p _)|]; try done;
        by intros [= <-].
Qed.

Lemma internal_errors_stay_inside_witness :
  outcome (dsl_query_data Samples.offline Samples.ctx Samples.id_payload)
  = Ret Samples.failed_query_reply
  ∧ auth_check Samples.closed Samples.ctx Samples.id_payload
    = Raise (Exc NotAuthorized "not authorized").
Proof.
  destruct (internal_errors_stay_inside Samples.offline Samples.ctx
              Samples.id_payload) as (_ & _ & Hinside).
  destruct Hinside as [Hconn _]; [reflexivity ..|].
  destruct (internal_errors_stay_inside Samples.closed Samples.ctx
              Samples.id_payload) as (Hquery & _ & _).
  split.
  - apply (Hconn (Exc DatabaseConnectionError
                      ("Database connection failed: "
                       +:+ "connection refused"))).
    reflexivity.
  - apply Hquery. reflexivity.
Defined.

(** C3 as first stated fails: for an empty [resourceID] the metadata
    endpoint raises the HTTP 400 abort, a fault of its own making: the
    authorization check was not even called. *)
Lemma abort_is_not_access_denied :
  show_dsl_metadata Samples.open Samples.ctx {[ "resourceID" := PStr "" ]}
  = ([], Raise (Exc (HTTPException 400) "resourceID field is required"))
  ∧ auth_check Samples.open Samples.ctx {[ "resourceID" := PStr "" ]}
    = Ret tt.
Proof. split; reflexivity. Qed.

(** ** The excluded columns *)

Section exclusion.
Variable self : DSLService.

(** Where an element of the comprehension's result comes from. *)
Lemma filter_fields_elem (m : gmap string string) (fs : list field)
    (f : field) :
  f ∈ filter_fields self m fs ↔
  ∃ f0, f0 ∈ fs ∧ excluded self (fid f0) = false
        ∧ f = with_name f0 (default (fid f0) (m !! fid f0)).
Proof.
  unfold filter_fields. rewrite list_elem_of_fmap. split.
  - intros (f0 & -> & Hin). apply list_elem_of_filter in Hin as [Hex Hin].
    exists f0. by rewrite negb_true_iff in Hex.
  - intros (f0 & Hin & Hex & ->). exists f0. split; [done|].
    apply list_elem_of_filter. by rewrite negb_true_iff.
Qed.

(** The comprehension keeps the parser's order. *)
Lemma filter_fields_fids (m : gmap string string) (fs : list field) :
  fid <$> filter_fields self m fs
  = filter (λ k, k ∉ columns_to_exclude self) (fid <$> fs).
Proof.
  unfold filter_fields.
  induction fs as [|f fs IH]; [done|]. rewrite fmap_cons.
  destruct (decide (fid f ∈ columns_to_exclude self)) as [Hin|Hout].
  - rewrite (filter_cons_False _ (fid f)) by tauto.
    rewrite filter_cons_False; [done|].
    unfold excluded. by rewrite bool_decide_eq_true_2.
  - rewrite (filter_cons_True _ (fid f)) by done.
    rewrite filter_cons_True.
    + rewrite !fmap_cons. cbn [with_name fid]. by rewrite IH.
    + unfold excluded. by rewrite bool_decide_eq_false_2.
Qed.

(** Every field [get_table_metadata] returns is a column of the parser
    that is not excluded, under the name the label map gives it. *)
Lemma get_table_metadata_elem (h : host) (table_name : pyval) (sort : bool)
    (l : list field) (f : field) :
  outcome (get_table_metadata self h table_name sort) = Ret l →
  f ∈ l →
  ∃ p fs m f0,
    outcome (_get_table_parser self h table_name) = Ret p
    ∧ raw_fields p = Ret fs
    ∧ outcome (_get_name_title_map self h table_name) = Ret m
    ∧ f0 ∈ fs ∧ excluded self (fid f0) = false
    ∧ f = with_name f0 (default (fid f0) (m !! fid f0)).
Proof.
  rewrite get_table_metadata_outcome. intros [= <-].
  destruct (outcome (_get_table_parser self h table_name)) as [p|];
    [|by intros ?%elem_of_nil].
  destruct (raw_fields p) as [fs|] eqn:Hfs; [|by intros ?%elem_of_nil].
  destruct (outcome (_get_name_title_map self h table_name)) as [m|];
    [|by intros ?%elem_of_nil].
  intros Hin.
  assert (f ∈ filter_fields self m fs) as Hf.
  { destruct sort; [by rewrite sorted_by_name_perm in Hin | done]. }
  apply filter_fields_elem in Hf as (f0 & ? & ? & ->).
  by exists p, fs, m, f0.
Qed.

(** No excluded key survives in a filtered row. *)
Lemma filter_row_lookup (row : gmap string pyval) (k : string) :
  filter_row self row !! k
  = if excluded self k then None else row !! k.
Proof.
  unfold filter_row. destruct (excluded self k) eqn:Hex.
  - apply map_lookup_filter_None. right. intros v _. simpl. by rewrite Hex.
  - destruct (row !! k) as [v|] eqn:Hk.
    + apply map_lookup_filter_Some. split; [done|]. simpl. by rewrite Hex.
    + apply map_lookup_filter_None. by left.
Qed.
End exclusion.

Lemma excluded_spec (k : string) :
  excluded _dsl_service k = true ↔ k ∈ COLUMNS_TO_EXCLUDE.
Proof. unfold excluded. apply bool_decide_eq_true. Qed.

(** The keys ["fid"] and ["name"] of the dictionary of a field. *)
Lemma field_dict_lookup (f : field) :
  field_dict f !! "fid" = Some (PStr (fid f))
  ∧ field_dict f !! "name" = Some (PStr (name f)).
Proof.
  unfold field_dict. split.
  - apply lookup_insert_eq.
  - rewrite lookup_insert_ne by done. apply lookup_insert_eq.
Qed.

(** C4. No record in the schema the metadata endpoint returns has a [fid]
    among [_id], [id], [_full_text], and no row in the data the query
    endpoint returns has one of these as a key. *)
Theorem excluded_columns_never_returned
    (h : host) (context data_dict resp : gmap string pyval) :
  (outcome (show_dsl_metadata h context data_dict) = Ret resp →
   ∃ schema,
     resp !! "schema" = Some (PList schema)
     ∧ ∀ i v, schema !! i = Some v →
         ∃ record column,
           v = PDict record
           ∧ record !! "fid" = Some (PStr column)
           ∧ column ∉ ["_id"; "id"; "_full_text"])
  ∧ (outcome (dsl_query_data h context data_dict) = Ret resp →
     ∀ data, resp !! "data" = Some (PList data) →
       ∀ i v, data !! i = Some v →
         ∃ row,
           v = PDict row
           ∧ ∀ k, k ∈ ["_id"; "id"; "_full_text"] → row !! k = None).
Proof.
  split.
  - intros Hresp.
    apply show_dsl_metadata_returns in Hresp as (sort & fm & Hfm & ->).
    exists ((λ f, PDict (field_dict f)) <$> fm). split.
    { rewrite lookup_insert_ne by done. apply lookup_insert_eq. }
    intros i v Hv. apply list_lookup_fmap_Some in Hv as (f & -> & Hf).
    apply list_elem_of_lookup_2 in Hf.
    destruct (get_table_metadata_elem _ _ _ _ _ _ Hfm Hf)
      as (p & fs & m & f0 & _ & _ & _ & _ & Hex & ->).
    exists (field_dict (with_name f0 (default (fid f0) (m !! fid f0)))),
           (fid f0).
    split; [done|]. split; [apply (field_dict_lookup (with_name _ _))|].
    change (fid f0 ∉ COLUMNS_TO_EXCLUDE).
    rewrite <- excluded_spec, Hex. done.
  - rewrite dsl_query_data_run.
    destruct (auth_check h context data_dict); [|done].
    cbn [outcome snd]. intros Hresp data Hdata i v Hv.
    destruct (truthy (dict_get data_dict "resourceID")) eqn:Hid;
      [destruct (truthy (dict_get data_dict "payload")) eqn:Hp|].
    + rewrite query_data_outcome, get_data_from_payload_outcome in Hresp
        by done.
      destruct (outcome (_get_table_parser _ _ _)) as [p|];
        [destruct (get_datas_by_payload p _) as [rows|]|];
        injection Hresp as <-;
        rewrite lookup_insert_ne, lookup_insert_eq in Hdata by done;
        try done.
      injection Hdata as <-.
      apply list_lookup_fmap_Some in Hv as (row' & -> & Hrow).
      apply list_lookup_fmap_Some in Hrow as (row & -> & _).
      eexists; split; [done|]. intros k Hk.
      rewrite filter_row_lookup.
      apply excluded_spec in Hk. by rewrite Hk.
    + unfold query_data in Hresp. rewrite Hid, Hp in Hresp.
      injection Hresp as <-.
      by rewrite (proj2 (create_error_response_keys _ _ _)) in Hdata.
    + unfold query_data in Hresp. rewrite Hid in Hresp.
      injection Hresp as <-.
      by rewrite (proj2 (create_error_response_keys _ _ _)) in Hdata.
Qed.

Lemma excluded_columns_never_returned_witness :
  (∃ schema,
     Samples.metadata_reply !! "schema" = Some (PList schema)
     ∧ ∀ i v, schema !! i = Some v →
         ∃ record column,
           v = PDict record
           ∧ record !! "fid" = Some (PStr column)
           ∧ column ∉ ["_id"; "id"; "_full_text"])
  ∧ (∃ row,
       PDict {[ "depth" := PInt 12 ]} = PDict row
       ∧ ∀ k, k ∈ ["_id"; "id"; "_full_text"] → row !! k = None).
Proof.
  split.
  - apply (excluded_columns_never_returned Samples.open Samples.ctx
             Samples.only_id Samples.metadata_reply).
    reflexivity.
  - destruct (excluded_columns_never_returned Samples.open Samples.ctx
                Samples.id_payload Samples.query_reply) as [_ Hrows].
    apply (Hrows eq_refl
             [ PDict {[ "depth" := PInt 30; "basin" := PStr "north";
                        "well" := PStr "w1" ]};
               PDict {[ "depth" := PInt 12 ]} ] eq_refl 1%nat).
    reflexivity.
Defined.

(** ** The view predicate *)

(** C5. [can_view] is a total boolean function of three stored fields of
    the resource. It is true exactly when [datastore_active] is truthy, or
    the url contains [_datastore_only_resource], or the format, letter case
    set aside by lowering it, is one of [csv], [xls], [xlsx], [tsv]. So it
    is true whenever [datastore_active] is [True], and false when there is
    no datastore activation, no marker in the url and no supported
    format. *)
Theorem can_view_spec (data_dict : view_data) :
  (can_view data_dict = true ↔
   truthy (default PNone (datastore_active (view_resource data_dict))) = true
   ∨ (∃ u pre post,
        url (view_resource data_dict) = Some u
        ∧ u = pre +:+ "_datastore_only_resource" +:+ post)
   ∨ (∃ f, format (view_resource data_dict) = Some f
           ∧ str_lower f ∈ ["csv"; "xls"; "xlsx"; "tsv"]))
  ∧ (datastore_active (view_resource data_dict) = Some (PBool true) →
     can_view data_dict = true)
  ∧ (truthy (default PNone (datastore_active (view_resource data_dict)))
     = false →
     (∀ u pre post, url (view_resource data_dict) = Some u →
                    u ≠ pre +:+ "_datastore_only_resource" +:+ post) →
     (∀ f, format (view_resource data_dict) = Some f →
           str_lower f ∉ ["csv"; "xls"; "xlsx"; "tsv"]) →
     can_view data_dict = false).
Proof.
  destruct data_dict as [[active u f]]. cbn [view_resource].
  assert (can_view (ViewData (Resource active u f)) = true ↔
          truthy (default PNone active) = true
          ∨ (∃ u' pre post,
               u = Some u' ∧ u' = pre +:+ "_datastore_only_resource" +:+ post)
          ∨ (∃ f', f = Some f' ∧ str_lower f' ∈ ["csv"; "xls"; "xlsx"; "tsv"]))
    as Hiff.
  { unfold can_view.
    cbn [view_resource datastore_active url format].
    destruct (truthy (default PNone active)); cbn [orb]; [by intuition|].
    destruct (str_contains DATASTORE_ONLY_MARKER (default "" u)) eqn:Hc.
    - split; [intros _|done]. right; left.
      apply str_contains_spec in Hc as (pre & post & Hu).
      destruct u as [u'|]; cbn in Hu.
      + by exists u', pre, post.
      + by destruct pre.
    - split.
      + destruct f as [f'|]; [|done].
        destruct (String.eqb f' ""); cbn [negb]; [done|].
        intros Hf%bool_decide_eq_true. right; right. by exists f'.
      + intros [?|[(u' & pre & post & -> & Hu)|(f' & -> & Hf)]]; [done|..].
        * assert (str_contains DATASTORE_ONLY_MARKER u' = true) as Hc'
            by (apply str_contains_spec; by exists pre, post).
          cbn in Hc. congruence.
        * destruct (String.eqb_spec f' "") as [->|_]; cbn [negb].
          -- by apply list_elem_of_In in Hf as [|[|[|[|[]]]]].
          -- by apply bool_decide_eq_true. }
  split; [exact Hiff|]. split.
  - cbn [datastore_active]. intros ->. apply Hiff. by left.
  - cbn [datastore_active url format]. intros Hactive Hurl Hformat.
    apply not_true_is_false. rewrite Hiff.
    intros [?|[(u' & pre & post & -> & Hu)|(f' & -> & Hf)]].
    + congruence.
    + by eapply Hurl.
    + by eapply Hformat.
Qed.

Lemma can_view_spec_witness :
  can_view (ViewData (Resource (Some (PBool true)) None (Some "PDF"))) = true
  ∧ can_view (ViewData (Resource None (Some "https://host/file.pdf")
                                 (Some "PDF"))) = false.
Proof.
  split.
  - apply (can_view_spec
             (ViewData (Resource (Some (PBool true)) None (Some "PDF")))).
    reflexivity.
  - apply (can_view_spec
             (ViewData (Resource None (Some "https://host/file.pdf")
                                 (Some "PDF")))).
    + reflexivity.
    + intros u pre post [= <-] Hu.
      assert (str_contains "_datastore_only_resource" "https://host/file.pdf"
              = true) as Hc
        by (apply str_contains_spec; by exists pre, post).
      discriminate Hc.
    + intros f [= <-]. vm_compute. intros Hin.
      by apply list_elem_of_In in Hin as [|[|[|[|[]]]]].
Defined.

(** ** Names and labels *)

Section labels.
Variable self : DSLService.

(** The label map holds, for a column that is not excluded, what the last
    field-info entry for it says: its label, or the id when it has none. *)
Lemma name_map_lookup (fields : list ds_field) (column : string) :
  excluded self column = false →
  foldl (name_map_step self) ∅ fields !! column
  = (λ e, default column (ds_info e ≫= (.!! "label")))
      <$> last (filter (λ e, ds_id e = column) fields).
Proof.
  intros Hex. induction fields as [|e fields IH] using rev_ind; [done|].
  rewrite foldl_snoc, filter_app. unfold name_map_step at 1.
  destruct (decide (ds_id e = column)) as [<-|Hne].
  - rewrite Hex. cbn [negb].
    rewrite lookup_insert_eq, filter_cons_True, filter_nil by done.
    rewrite last_snoc. cbn. by destruct (ds_info e).
  - rewrite filter_cons_False, filter_nil, app_nil_r by done.
    destruct (excluded self (ds_id e)); cbn [negb]; [done|].
    by rewrite lookup_insert_ne.
Qed.

(** So the name given to a column is its label if it has one, else its
    id. *)
Lemma name_map_default (fields : list ds_field) (column : string) :
  excluded self column = false →
  default column (foldl (name_map_step self) ∅ fields !! column)
  = default column (ds_label fields column).
Proof.
  intros Hex. rewrite name_map_lookup by done. unfold ds_label.
  by destruct (last (filter (λ e, ds_id e = column) fields)).
Qed.
End labels.

(** C10. In every schema the metadata endpoint returns, the [name] of a
    record is the label the [datastore_search] field info holds for its
    [fid], and the [fid] itself when there is no such label. If the lookup
    raises, the label map is empty, every name is the [fid], and the
    endpoint returns a success envelope all the same. *)
Theorem names_are_labels (h : host) (context data_dict : gmap string pyval) :
  (∀ resp,
     outcome (show_dsl_metadata h context data_dict) = Ret resp →
     resp !! "success" = Some (PBool true)
     ∧ ∃ schema,
         resp !! "schema" = Some (PList schema)
         ∧ ∀ i v, schema !! i = Some v →
             ∃ record column,
               v = PDict record
               ∧ record !! "fid" = Some (PStr column)
               ∧ record !! "name"
                 = Some (PStr (expected_name
                                 h (dict_get data_dict "resourceID") column)))
  ∧ (∀ e,
       label_lookup h (dict_get data_dict "resourceID") = Raise e →
       outcome (_get_name_title_map _dsl_service h
                                    (dict_get data_dict "resourceID"))
       = Ret ∅
       ∧ (∀ column,
            expected_name h (dict_get data_dict "resourceID") column = column)
       ∧ (truthy (dict_get data_dict "resourceID") = true →
          auth_check h context data_dict = Ret tt →
          (∀ v, data_dict !! "sort" = Some v → ∃ s, v = PStr s) →
          ∃ resp,
            outcome (show_dsl_metadata h context data_dict) = Ret resp
            ∧ resp !! "success" = Some (PBool true))).
Proof.
  split.
  - intros resp Hresp.
    apply show_dsl_metadata_returns in Hresp as (sort & fm & Hfm & ->).
    split; [apply lookup_insert_eq|].
    exists ((λ f, PDict (field_dict f)) <$> fm). split.
    { rewrite lookup_insert_ne by done. apply lookup_insert_eq. }
    intros i v Hv. apply list_lookup_fmap_Some in Hv as (f & -> & Hf).
    apply list_elem_of_lookup_2 in Hf.
    destruct (get_table_metadata_elem _ _ _ _ _ _ Hfm Hf)
      as (p & fs & m & f0 & _ & _ & Hm & _ & Hex & ->).
    eexists _, (fid f0). split; [done|].
    split; [apply (field_dict_lookup (with_name _ _))|].
    rewrite (proj2 (field_dict_lookup (with_name _ _))). cbn [with_name name].
    do 2 f_equal. rewrite get_name_title_map_outcome in Hm.
    injection Hm as <-. unfold expected_name.
    destruct (label_lookup h (dict_get data_dict "resourceID")); [|done].
    by apply name_map_default.
  - intros e He. split; [|split].
    + by rewrite get_name_title_map_outcome, He.
    + intros column. unfold expected_name. by rewrite He.
    + intros Hid Hauth Hsort.
      rewrite show_dsl_metadata_outcome, Hid, Hauth.
      assert (∃ s, dict_get_default data_dict "sort" (PStr "false") = PStr s)
        as [s ->].
      { unfold dict_get_default.
        destruct (data_dict !! "sort") as [v|]; [|by eexists].
        destruct (Hsort v eq_refl) as [s ->]. by exists s. }
      destruct (show_metadata_outcome _dsl_service h
                  (dict_get data_dict "resourceID")
                  (String.eqb (str_lower s) "true") Hid)
        as (fm & _ & ->).
      eexists. split; [done|]. apply lookup_insert_eq.
Qed.

Lemma names_are_labels_witness :
  (∃ record column,
     PDict {[ "fid" := PStr "depth"; "name" := PStr "Depth (m)";
              "semanticType" := PStr "quantitative" ]} = PDict record
     ∧ record !! "fid" = Some (PStr column)
     ∧ record !! "name"
       = Some (PStr (expected_name Samples.open (PStr "r1") column)))
  ∧ expected_name Samples.open (PStr "r1") "depth" = "Depth (m)"
  ∧ expected_name Samples.open (PStr "r1") "basin" = "basin"
  ∧ (∃ resp,
       outcome (show_dsl_metadata Samples.unlabelled Samples.ctx
                                  Samples.only_id) = Ret resp
       ∧ resp !! "success" = Some (PBool true)).
Proof.
  destruct (names_are_labels Samples.open Samples.ctx Samples.only_id)
    as [Hnames _].
  destruct (Hnames Samples.metadata_reply eq_refl)
    as (_ & schema & Hschema & Hrecords).
  injection Hschema as <-.
  split; [exact (Hrecords 1%nat _ eq_refl)|].
  split; [reflexivity|]. split; [reflexivity|].
  destruct (names_are_labels Samples.unlabelled Samples.ctx Samples.only_id)
    as [_ Hraise].
  destruct (Hraise (Exc ObjectNotFound "Resource was not found.") eq_refl)
    as (_ & _ & Hreturns).
  apply Hreturns; [reflexivity | reflexivity |].
  intros v Hv. discriminate Hv.
Defined.

(** ** The sort flag *)

(** What [get_table_metadata] returns, in terms of the table's fields. *)
Lemma get_table_metadata_listed (h : host) (table_name : pyval) (sort : bool) :
  outcome (get_table_metadata _dsl_service h table_name sort)
  = Ret (if sort then sorted_by_name (listed_fields h table_name)
         else listed_fields h table_name).
Proof.
  rewrite get_table_metadata_outcome.
  unfold listed_fields, table_fields, label_map.
  rewrite get_name_title_map_outcome.
  destruct (outcome (_get_table_parser _dsl_service h table_name)) as [p|];
    [destruct (raw_fields p)|]; by destruct sort.
Qed.

(** The fields listed are the parser's, the excluded ones left out, in the
    parser's order. *)
Lemma listed_fields_fids (h : host) (table_name : pyval) :
  fid <$> listed_fields h table_name
  = filter (λ k, k ∉ COLUMNS_TO_EXCLUDE) (fid <$> table_fields h table_name).
Proof. apply filter_fields_fids. Qed.

(** C8, as amended. The [sort] flag is an optional string that defaults to
    ["false"] and is compared with ["true"] after lowering. On a request
    that passes the guard and the authorization check: without [sort], or
    with a string that does not lower to ["true"], the fields come back
    unsorted, in the parser's order; with a string that lowers to ["true"]
    the same fields come back sorted by name. *)
Theorem sort_flag (h : host) (context data_dict : gmap string pyval) :
  truthy (dict_get data_dict "resourceID") = true →
  auth_check h context data_dict = Ret tt →
  (data_dict !! "sort" = None →
   outcome (show_dsl_metadata h context data_dict)
   = Ret (metadata_envelope
            (dict_get data_dict "resourceID")
            (listed_fields h (dict_get data_dict "resourceID"))))
  ∧ (∀ s, data_dict !! "sort" = Some (PStr s) → str_lower s ≠ "true" →
          outcome (show_dsl_metadata h context data_dict)
          = Ret (metadata_envelope
                   (dict_get data_dict "resourceID")
                   (listed_fields h (dict_get data_dict "resourceID"))))
  ∧ (∀ s, data_dict !! "sort" = Some (PStr s) → str_lower s = "true" →
          ∃ fields_meta,
            outcome (show_dsl_metadata h context data_dict)
            = Ret (metadata_envelope (dict_get data_dict "resourceID")
                                     fields_meta)
            ∧ Sorted name_le fields_meta
            ∧ fields_meta
              ≡ₚ listed_fields h (dict_get data_dict "resourceID"))
  ∧ fid <$> listed_fields h (dict_get data_dict "resourceID")
    = filter (λ k, k ∉ COLUMNS_TO_EXCLUDE)
             (fid <$> table_fields h (dict_get data_dict "resourceID")).
Proof.
  intros Hid Hauth.
  assert (∀ sort,
    outcome (show_metadata _dsl_service h (dict_get data_dict "resourceID")
                           sort)
    = Ret (metadata_envelope
             (dict_get data_dict "resourceID")
             (if sort
              then sorted_by_name
                     (listed_fields h (dict_get data_dict "resourceID"))
              else listed_fields h (dict_get data_dict "resourceID"))))
    as Hshow.
  { intros sort.
    destruct (show_metadata_outcome _dsl_service h _ sort Hid)
      as (fm & Hfm & ->).
    rewrite get_table_metadata_listed in Hfm. by injection Hfm as <-. }
  rewrite show_dsl_metadata_outcome, Hid, Hauth. unfold dict_get_default.
  split; [|split; [|split]].
  - intros ->. cbn [from_option id]. apply Hshow.
  - intros s -> Hs. cbn [from_option id]. rewrite Hshow.
    by destruct (String.eqb_spec (str_lower s) "true").
  - intros s -> Hs. cbn [from_option id]. rewrite Hshow, Hs.
    eexists. split; [done|].
    split; [apply sorted_by_name_sorted | apply sorted_by_name_perm].
  - apply listed_fields_fids.
Qed.

Lemma sort_flag_witness :
  outcome (show_dsl_metadata Samples.open Samples.ctx Samples.only_id)
  = Ret Samples.metadata_reply
  ∧ fid <$> listed_fields Samples.open (PStr "r1") = ["well"; "depth"; "basin"]
  ∧ outcome (show_dsl_metadata Samples.open Samples.ctx Samples.id_sort_string)
    = Ret Samples.sorted_metadata_reply
  ∧ ∃ fields_meta,
      outcome (show_dsl_metadata Samples.open Samples.ctx
                                 Samples.id_sort_string)
      = Ret (metadata_envelope (PStr "r1") fields_meta)
      ∧ Sorted name_le fields_meta
      ∧ fields_meta ≡ₚ listed_fields Samples.open (PStr "r1").
Proof.
  destruct (sort_flag Samples.open Samples.ctx Samples.only_id)
    as (Hplain & _ & _ & _); [reflexivity ..|].
  destruct (sort_flag Samples.open Samples.ctx Samples.id_sort_string)
    as (_ & _ & Hsorted & _); [reflexivity ..|].
  split; [rewrite (Hplain eq_refl); reflexivity|].
  split; [reflexivity|]. split; [reflexivity|].
  apply (Hsorted "True"); reflexivity.
Defined.

(** C8 as first stated fails: with the boolean [True] for [sort] the
    endpoint raises an [AttributeError] once the authorization check has
    passed; no field is sorted or returned. *)
Lemma sort_flag_boolean_raises :
  Samples.id_sort_bool !! "sort" = Some (PBool true)
  ∧ show_dsl_metadata Samples.open Samples.ctx Samples.id_sort_bool
    = ([EvCheckAccess "resource_show" Samples.ctx {[ "id" := PStr "r1" ]}],
       Raise (Exc AttributeError "'bool' object has no attribute 'lower'")).
Proof. split; reflexivity. Qed.

(** ** The calls a computation makes *)

Section calls.
Context {A : Type}.

Lemma calls_try_except (m : M A) (handler : exc → M A) :
  calls (try_except m handler)
  = match outcome m with
    | Ret _ => calls m
    | Raise e => calls m ++ calls (handler e)
    end.
Proof.
  destruct m as [t [a|e]]; simpl; [reflexivity|].
  unfold calls; simpl. destruct (handler e); reflexivity.
Qed.

Lemma calls_call (ev : event) (r : result A) : calls (call ev r) = [ev].
Proof. reflexivity. Qed.

Lemma calls_mret (a : A) : calls (mret a : M A) = [].
Proof. reflexivity. Qed.

Lemma calls_raise (e : exc) : calls (raise e : M A) = [].
Proof. reflexivity. Qed.
End calls.

Section service_calls.
Variable h : host.

(** [_get_table_parser] in full: no call without a read URL, one call to
    the library otherwise. *)
Lemma get_table_parser_run (table_name : pyval) :
  _get_table_parser _dsl_service h table_name
  = if truthy (config_get h "ckan.datastore.read_url" (PStr ""))
    then ([parser_event h table_name],
          match connector_get_parser
                  h (config_get h "ckan.datastore.read_url" (PStr ""))
                  table_name (_get_database_connection_params _dsl_service h)
          with
          | Ret p => Ret p
          | Raise e =>
              Raise (Exc DatabaseConnectionError
                         ("Database connection failed: " +:+ exc_msg e))
          end)
    else ([], Raise (Exc DatabaseConnectionError
                         ("Database connection failed: "
                          +:+ "Database read URL not configured"))).
Proof.
  unfold _get_table_parser, parser_event.
  destruct (truthy (config_get h "ckan.datastore.read_url" (PStr "")));
    [|reflexivity].
  cbn [negb]. by destruct (connector_get_parser h _ _ _).
Qed.

(** [_get_name_title_map] in full: one lookup, and it always returns. *)
Lemma get_name_title_map_run (table_name : pyval) :
  _get_name_title_map _dsl_service h table_name
  = ([search_event table_name], Ret (label_map h table_name)).
Proof.
  unfold label_map. rewrite get_name_title_map_outcome.
  unfold _get_name_title_map, label_lookup, search_event.
  by destruct (datastore_search h _ _).
Qed.

(** The calls of [get_table_metadata]: the connection, then, if there is a
    parser, the label lookup and the read of [raw_fields]. *)
Lemma get_table_metadata_calls (table_name : pyval) (sort : bool) :
  calls (get_table_metadata _dsl_service h table_name sort)
  = calls (_get_table_parser _dsl_service h table_name)
    ++ match outcome (_get_table_parser _dsl_service h table_name) with
       | Ret _ => [search_event table_name; EvRawFields]
       | Raise _ => []
       end.
Proof.
  unfold get_table_metadata. rewrite calls_try_except, outcome_bind, calls_bind.
  destruct (outcome (_get_table_parser _dsl_service h table_name)) as [p|e];
    [|reflexivity].
  rewrite outcome_bind, calls_bind, get_name_title_map_run.
  cbn [outcome calls fst snd]. rewrite outcome_bind, calls_bind.
  rewrite outcome_call, calls_call.
  destruct (raw_fields p); cbn [calls_mret]; by rewrite ?app_nil_r.
Qed.

(** The calls of [get_data_from_payload]: the connection, then, if there is
    a parser, the query with the payload as it came. *)
Lemma get_data_from_payload_calls (table_name payload : pyval) :
  calls (get_data_from_payload _dsl_service h table_name payload)
  = calls (_get_table_parser _dsl_service h table_name)
    ++ match outcome (_get_table_parser _dsl_service h table_name) with
       | Ret _ => [EvGetDatasByPayload payload]
       | Raise _ => []
       end.
Proof.
  unfold get_data_from_payload.
  rewrite calls_try_except, outcome_bind, calls_bind.
  destruct (outcome (_get_table_parser _dsl_service h table_name)) as [p|e];
    [|reflexivity].
  rewrite outcome_bind, calls_bind, outcome_call, calls_call.
  destruct (get_datas_by_payload p payload); by rewrite ?app_nil_r.
Qed.

(** [show_metadata] calls what [get_table_metadata] calls, and nothing
    without an identifier. *)
Lemma show_metadata_calls (resource_id : pyval) (sort : bool) :
  calls (show_metadata _dsl_service h resource_id sort)
  = if truthy resource_id
    then calls (get_table_metadata _dsl_service h resource_id sort)
    else [].
Proof.
  unfold show_metadata. destruct (truthy resource_id); [|reflexivity].
  cbn [negb]. rewrite calls_try_except, outcome_bind, calls_bind.
  rewrite get_table_metadata_outcome. cbn [calls_mret].
  by rewrite app_nil_r.
Qed.

(** [query_data] calls what [get_data_from_payload] calls, and nothing when
    an argument is missing. *)
Lemma query_data_calls (resource_id payload : pyval) :
  calls (query_data _dsl_service h resource_id payload)
  = if truthy resource_id && truthy payload
    then calls (get_data_from_payload _dsl_service h resource_id payload)
    else [].
Proof.
  unfold query_data.
  destruct (truthy resource_id); [|reflexivity].
  destruct (truthy payload); [|reflexivity].
  cbn [negb andb]. rewrite calls_try_except, outcome_bind, calls_bind.
  destruct (outcome (get_data_from_payload _ _ _ _)) as [rows|e];
    [by rewrite app_nil_r|].
  by destruct (is_DSLQueryError e); rewrite app_nil_r.
Qed.
End service_calls.

Section endpoint_calls.
Variable h : host.
Variables context data_dict : gmap string pyval.

(** The calls of the metadata endpoint: none when the guard aborts, else the
    authorization check and, once it and the sort flag are through, what
    [show_metadata] calls. *)
Lemma show_dsl_metadata_calls :
  calls (show_dsl_metadata h context data_dict)
  = if truthy (dict_get data_dict "resourceID")
    then auth_event context data_dict
         :: match auth_check h context data_dict,
                  dict_get_default data_dict "sort" (PStr "false") with
            | Ret _, PStr s =>
                calls (show_metadata _dsl_service h
                                     (dict_get data_dict "resourceID")
                                     (String.eqb (str_lower s) "true"))
            | _, _ => []
            end
    else [].
Proof.
  unfold show_dsl_metadata, auth_check, auth_event.
  destruct (truthy (dict_get data_dict "resourceID")); [|reflexivity].
  cbn [negb]. rewrite calls_bind, outcome_call, calls_call.
  destruct (check_access h _ _ _) as [[]|e]; [|reflexivity].
  rewrite calls_bind.
  by destruct (dict_get_default data_dict "sort" (PStr "false")).
Qed.

(** The calls of the query endpoint. *)
Lemma dsl_query_data_calls :
  calls (dsl_query_data h context data_dict)
  = auth_event context data_dict
    :: match auth_check h context data_dict with
       | Ret _ =>
           calls (query_data _dsl_service h
                             (dict_get data_dict "resourceID")
                             (dict_get data_dict "payload"))
       | Raise _ => []
       end.
Proof.
  rewrite dsl_query_data_run.
  by destruct (auth_check h context data_dict).
Qed.
End endpoint_calls.

(** ** What the endpoints call, and in what order *)

(** X1. The metadata endpoint calls nothing when [resourceID] is missing;
    otherwise its first call is the host's [resource_show] check for that
    very identifier, and when the check raises that fault is the outcome and
    the check is the only call made: no connection, no lookup. *)
Theorem metadata_checks_access_first
    (h : host) (context data_dict : gmap string pyval) :
  (truthy (dict_get data_dict "resourceID") = false →
   calls (show_dsl_metadata h context data_dict) = [])
  ∧ (truthy (dict_get data_dict "resourceID") = true →
     ∃ rest,
       calls (show_dsl_metadata h context data_dict)
       = EvCheckAccess "resource_show" context
                       {[ "id" := dict_get data_dict "resourceID" ]} :: rest)
  ∧ (∀ e,
       truthy (dict_get data_dict "resourceID") = true →
       check_access h "resource_show" context
                    {[ "id" := dict_get data_dict "resourceID" ]} = Raise e →
       show_dsl_metadata h context data_dict
       = ([EvCheckAccess "resource_show" context
                         {[ "id" := dict_get data_dict "resourceID" ]}],
          Raise e)).
Proof.
  split; [|split].
  - intros Hid. by rewrite show_dsl_metadata_calls, Hid.
  - intros Hid. rewrite show_dsl_metadata_calls, Hid. eauto.
  - intros e Hid He.
    rewrite (surjective_pairing (show_dsl_metadata h context data_dict)).
    change (show_dsl_metadata h context data_dict).1
      with (calls (show_dsl_metadata h context data_dict)).
    change (show_dsl_metadata h context data_dict).2
      with (outcome (show_dsl_metadata h context data_dict)).
    rewrite show_dsl_metadata_calls, show_dsl_metadata_outcome, Hid.
    unfold auth_check, auth_event. by rewrite He.
Qed.

Lemma metadata_checks_access_first_witness :
  calls (show_dsl_metadata Samples.closed Samples.ctx Samples.no_data) = []
  ∧ show_dsl_metadata Samples.closed Samples.ctx Samples.only_id
    = ([EvCheckAccess "resource_show" Samples.ctx {[ "id" := PStr "r1" ]}],
       Raise (Exc NotAuthorized "not authorized")).
Proof.
  split.
  - apply (metadata_checks_access_first Samples.closed Samples.ctx
             Samples.no_data). reflexivity.
  - apply (metadata_checks_access_first Samples.closed Samples.ctx
             Samples.only_id); reflexivity.
Defined.


(** X3. Whatever the host does, the calls of the query endpoint are an
    initial part of: the authorization check, the connection to the table,
    the parser's query with the payload exactly as the caller gave it. So
    it never looks labels up and never reads [raw_fields]. *)
Theorem query_call_order (h : host) (context data_dict : gmap string pyval) :
  calls (dsl_query_data h context data_dict)
  `prefix_of`
  [ EvCheckAccess "resource_show" context
                  {[ "id" := dict_get data_dict "resourceID" ]};
    EvGetParser (config_get h "ckan.datastore.read_url" (PStr ""))
                (dict_get data_dict "resourceID")
                (_get_database_connection_params _dsl_service h);
    EvGetDatasByPayload (dict_get data_dict "payload") ].
Proof.
  rewrite dsl_query_data_calls. apply prefix_cons.
  destruct (auth_check h context data_dict); [|apply prefix_nil].
  rewrite query_data_calls.
  destruct (truthy (dict_get data_dict "resourceID")
            && truthy (dict_get data_dict "payload")); [|apply prefix_nil].
  rewrite get_data_from_payload_calls, get_table_parser_run.
  destruct (truthy (config_get h "ckan.datastore.read_url" (PStr "")));
    cbn [calls outcome fst snd]; [|apply prefix_nil].
  destruct (connector_get_parser h _ _ _); cbn [app].
  - reflexivity.
  - by apply prefix_cons, prefix_nil.
Qed.

(** ** The connection to the table *)

(** X4. Whenever [_get_table_parser] fails, the fault is a
    [DatabaseConnectionError] whose message starts with "Database connection
    failed: "; when it succeeds, the parser is the one the library gave for
    the configured read URL, the table and the engine parameters. Either
    way the library was called at most once. *)
Theorem table_parser_failure (h : host) (table_name : pyval) :
  (∀ e, outcome (_get_table_parser _dsl_service h table_name) = Raise e →
        exc_cls e = DatabaseConnectionError
        ∧ starts_with "Database connection failed: " (exc_msg e))
  ∧ (∀ p, outcome (_get_table_parser _dsl_service h table_name) = Ret p →
          connector_get_parser
            h (config_get h "ckan.datastore.read_url" (PStr "")) table_name
            (_get_database_connection_params _dsl_service h)
          = Ret p)
  ∧ (List.length (calls (_get_table_parser _dsl_service h table_name)) ≤ 1)%nat.
Proof.
  rewrite get_table_parser_run.
  destruct (truthy (config_get h "ckan.datastore.read_url" (PStr "")));
    cbn [outcome calls fst snd List.length].
  - destruct (connector_get_parser h _ _ _) as [p|e'].
    + split; [done|]. split; [by intros ? [= <-] | lia].
    + split; [|split; [done | lia]].
      intros e [= <-]. split; [done|]. by eexists.
  - split; [|split; [done | lia]].
    intros e [= <-]. split; [done|]. by eexists.
Qed.

Lemma table_parser_failure_witness :
  exc_cls (Exc DatabaseConnectionError
               ("Database connection failed: " +:+ "connection refused"))
  = DatabaseConnectionError
  ∧ starts_with "Database connection failed: "
                ("Database connection failed: " +:+ "connection refused")
  ∧ connector_get_parser Samples.open (PStr "postgresql://ro@db/datastore")
                         (PStr "r1")
                         (_get_database_connection_params _dsl_service
                                                          Samples.open)
    = Ret Samples.table.
Proof.
  destruct (table_parser_failure Samples.offline (PStr "r1")) as (Hfail & _).
  destruct (table_parser_failure Samples.open (PStr "r1")) as (_ & Hok & _).
  destruct (Hfail (Exc DatabaseConnectionError
                       ("Database connection failed: "
                        +:+ "connection refused")) eq_refl) as [Hcls Hmsg].
  split; [exact Hcls|]. split; [exact Hmsg|].
  apply (Hok Samples.table). reflexivity.
Defined.

(** X5. When the configuration has no read URL, or a falsy one, nothing
    ever connects to the database: [_get_table_parser] raises at once
    without a call, the query endpoint calls the authorization check and
    nothing else, and with both arguments there it answers [success: false]
    with "Query execution failed: Database connection failed: Database read
    URL not configured". *)
Theorem no_read_url_no_connection
    (h : host) (context data_dict : gmap string pyval) :
  truthy (config_get h "ckan.datastore.read_url" (PStr "")) = false →
  (∀ table_name,
     _get_table_parser _dsl_service h table_name
     = ([], Raise (Exc DatabaseConnectionError
                       ("Database connection failed: "
                        +:+ "Database read URL not configured"))))
  ∧ calls (dsl_query_data h context data_dict)
    = [EvCheckAccess "resource_show" context
                     {[ "id" := dict_get data_dict "resourceID" ]}]
  ∧ calls (show_dsl_metadata h context data_dict)
    `prefix_of`
    [EvCheckAccess "resource_show" context
                   {[ "id" := dict_get data_dict "resourceID" ]}]
  ∧ (check_access h "resource_show" context
                  {[ "id" := dict_get data_dict "resourceID" ]} = Ret tt →
     truthy (dict_get data_dict "resourceID") = true →
     truthy (dict_get data_dict "payload") = true →
     outcome (dsl_query_data h context data_dict)
     = Ret {[ "success" := PBool false;
              "data" := PNone;
              "message" :=
                PStr ("Query execution failed: "
                      +:+ "Database connection failed: "
                      +:+ "Database read URL not configured") ]}).
Proof.
  intros Hurl.
  assert (∀ table_name,
    _get_table_parser _dsl_service h table_name
    = ([], Raise (Exc DatabaseConnectionError
                      ("Database connection failed: "
                       +:+ "Database read URL not configured")))) as Hparser.
  { intros table_name. by rewrite get_table_parser_run, Hurl. }
  split; [exact Hparser|]. split; [|split].
  - rewrite dsl_query_data_calls. f_equal.
    destruct (auth_check h context data_dict); [|done].
    rewrite query_data_calls.
    destruct (_ && _); [|done].
    by rewrite get_data_from_payload_calls, Hparser.
  - rewrite show_dsl_metadata_calls.
    destruct (truthy (dict_get data_dict "resourceID")) eqn:Hid;
      [|apply prefix_nil].
    apply prefix_cons.
    destruct (auth_check h context data_dict); [|done].
    destruct (dict_get_default data_dict "sort" (PStr "false")); try done.
    by rewrite show_metadata_calls, Hid, get_table_metadata_calls, Hparser.
  - intros Hauth Hid Hp. rewrite dsl_query_data_run.
    unfold auth_check. rewrite Hauth. cbn [outcome snd].
    rewrite query_data_outcome, get_data_from_payload_outcome by done.
    by rewrite Hparser.
Qed.

Lemma no_read_url_no_connection_witness :
  truthy (config_get Samples.unconfigured "ckan.datastore.read_url" (PStr ""))
  = false
  ∧ calls (dsl_query_data Samples.unconfigured Samples.ctx Samples.id_payload)
    = [EvCheckAccess "resource_show" Samples.ctx {[ "id" := PStr "r1" ]}]
  ∧ (∃ msg,
       outcome (dsl_query_data Samples.unconfigured Samples.ctx
                               Samples.id_payload)
       = Ret {[ "success" := PBool false; "data" := PNone;
                "message" := PStr msg ]}).
Proof.
  destruct (no_read_url_no_connection Samples.unconfigured Samples.ctx
              Samples.id_payload eq_refl) as (_ & Hcalls & _ & Hreply).
  split; [reflexivity|]. split; [exact Hcalls|].
  eexists. apply Hreply; reflexivity.
Defined.

(** X6. Each engine parameter [k] among [pool_size], [max_overflow],
    [pool_recycle], [echo], [echo_pool] is the value configured under
    [ckanext.odn.dsl.k], untouched, and its default (15, 100, 3600, False,
    False) when that key is not configured; no other parameter is passed. *)
Theorem engine_params_rule (h : host) (k : string) :
  _get_database_connection_params _dsl_service h !! k
  = (λ dflt, default dflt (config h !! ("ckanext.odn.dsl." +:+ k)))
      <$> ({[ "pool_size" := PInt 15; "max_overflow" := PInt 100;
              "pool_recycle" := PInt 3600; "echo" := PBool false;
              "echo_pool" := PBool false ]} : gmap string pyval) !! k.
Proof.
  unfold _get_database_connection_params, config_get, dict_get_default.
  destruct (decide (k = "pool_size")) as [->|?];
    [by rewrite !lookup_insert_eq|].
  rewrite (lookup_insert_ne _ "pool_size"), (lookup_insert_ne _ "pool_size")
    by done.
  destruct (decide (k = "max_overflow")) as [->|?];
    [by rewrite !lookup_insert_eq|].
  rewrite (lookup_insert_ne _ "max_overflow"),
    (lookup_insert_ne _ "max_overflow") by done.
  destruct (decide (k = "pool_recycle")) as [->|?];
    [by rewrite !lookup_insert_eq|].
  rewrite (lookup_insert_ne _ "pool_recycle"),
    (lookup_insert_ne _ "pool_recycle") by done.
  destruct (decide (k = "echo")) as [->|?];
    [by rewrite !lookup_insert_eq|].
  rewrite (lookup_insert_ne _ "echo"), (lookup_insert_ne _ "echo") by done.
  destruct (decide (k = "echo_pool")) as [->|?];
    [by rewrite !lookup_singleton_eq|].
  by rewrite !lookup_singleton_ne.
Qed.

(** ** The label map *)

(** An excluded column never gets into the label map. *)
Lemma name_map_excluded (self : DSLService) (fields : list ds_field)
    (column : string) :
  excluded self column = true →
  foldl (name_map_step self) ∅ fields !! column = None.
Proof.
  intros Hex. induction fields as [|e fields IH] using rev_ind; [done|].
  rewrite foldl_snoc. unfold name_map_step at 1.
  destruct (excluded self (ds_id e)) eqn:He; cbn [negb]; [done|].
  rewrite lookup_insert_ne; [done|]. intros Heq. congruence.
Qed.

(** X7. [_get_name_title_map] never raises, and makes the one
    [datastore_search] call with [ignore_auth] set, whoever asks. The map it
    returns has an entry for a column exactly when the column is not one of
    [_id], [id], [_full_text] and the lookup succeeded with a field of that
    id; after a failed lookup it is empty. *)
Theorem label_map_domain (h : host) (table_name : pyval) :
  _get_name_title_map _dsl_service h table_name
  = ([EvDatastoreSearch {[ "ignore_auth" := PBool true ]}
                        {[ "resource_id" := table_name; "limit" := PInt 0 ]}],
     Ret (label_map h table_name))
  ∧ (∀ column,
       is_Some (label_map h table_name !! column)
       ↔ (column ∉ ["_id"; "id"; "_full_text"])
         ∧ ∃ r entry,
             label_lookup h table_name = Ret r
             ∧ entry ∈ default [] (ds_fields r)
             ∧ ds_id entry = column)
  ∧ (∀ e, label_lookup h table_name = Raise e → label_map h table_name = ∅).
Proof.
  split; [apply get_name_title_map_run|].
  unfold label_map. rewrite get_name_title_map_outcome. split.
  - intros column.
    destruct (label_lookup h table_name) as [r|e].
    + destruct (excluded _dsl_service column) eqn:Hex.
      * rewrite name_map_excluded by done. split; [by intros []|].
        intros [Hout _]. apply excluded_spec in Hex. done.
      * rewrite name_map_lookup by done. split.
        -- intros [label Hlabel]. split.
           { intros Hin. apply excluded_spec in Hin. congruence. }
           destruct (last _) as [entry|] eqn:Hlast; [|done].
           apply last_Some_elem_of, list_elem_of_filter in Hlast
             as [Hid Hin].
           by exists r, entry.
        -- intros (_ & r' & entry & [= <-] & Hin & Hid).
           assert (entry ∈ filter (λ e, ds_id e = column)
                                  (default [] (ds_fields r))) as Hf
             by by apply list_elem_of_filter.
           destruct (filter _ _) as [|x l] using rev_ind;
             [by apply elem_of_nil in Hf|].
           rewrite last_snoc. by eexists.
    + rewrite lookup_empty. split; [by intros []|].
      by intros (_ & r & entry & ? & _).
  - by intros e ->.
Qed.

Lemma label_map_domain_witness :
  is_Some (label_map Samples.open (PStr "r1") !! "depth")
  ∧ ¬ is_Some (label_map Samples.open (PStr "r1") !! "_id")
  ∧ label_map Samples.unlabelled (PStr "r1") = ∅.
Proof.
  destruct (label_map_domain Samples.open (PStr "r1")) as (_ & Hdom & _).
  destruct (label_map_domain Samples.unlabelled (PStr "r1"))
    as (_ & _ & Hempty).
  split; [|split].
  - apply Hdom. split.
    + intros Hin. by apply list_elem_of_In in Hin as [|[|[|[]]]].
    + exists Samples.search_result,
        (DsField "depth" (Some {[ "label" := "Depth (m)"; "notes" := "" ]})).
      split; [reflexivity|]. split; [|reflexivity].
      apply list_elem_of_In. right; left. reflexivity.
  - intros Hsome. apply Hdom in Hsome as [Hout _].
    apply Hout. apply list_elem_of_In. left. reflexivity.
  - apply (Hempty (Exc ObjectNotFound "Resource was not found.")).
    reflexivity.
Defined.

(** ** What the metadata keeps of a column *)



(** ** More on the order of the fields *)

Lemma string_compare_refl (s : string) : String.compare s s = Eq.
Proof.
  induction s as [|c s IH]; [done|]. simpl.
  unfold Ascii.compare. by rewrite N.compare_refl.
Qed.

Lemma string_leb_refl (s : string) : String.leb s s = true.
Proof. unfold String.leb. by rewrite string_compare_refl. Qed.

(** Inserting a field puts it ahead of the fields of its own name and moves
    no other. *)
Lemma named_insert_by_name (n : string) (x : field) (l : list field) :
  named n (insert_by_name x l)
  = if decide (name x = n) then x :: named n l else named n l.
Proof.
  unfold named. induction l as [|y l IH]; cbn [insert_by_name].
  - by rewrite filter_cons, filter_nil.
  - destruct (String.leb (name x) (name y)) eqn:Hxy.
    + by rewrite (filter_cons _ x).
    + assert (name x ≠ name y) as Hne.
      { intros Heq. rewrite Heq, string_leb_refl in Hxy. done. }
      rewrite !(filter_cons _ y), IH.
      destruct (decide (name x = n)) as [Hx|Hx];
        destruct (decide (name y = n)) as [Hy|Hy]; try done.
      congruence.
Qed.

(** A list already in name order is left as it is. *)
Lemma sorted_by_name_id (l : list field) :
  Sorted name_le l → sorted_by_name l = l.
Proof.
  induction 1 as [|x l Hs IH Hhd]; [done|].
  unfold sorted_by_name in *. cbn [foldr]. rewrite IH.
  destruct Hhd as [|y l Hxy]; [done|]. cbn [insert_by_name].
  unfold name_le in Hxy. by rewrite Hxy.
Qed.

(** X9. Sorting by name is stable: in the sorted schema the fields that
    share a name stand in the order the parser gave them. *)
Theorem sort_is_stable
    (h : host) (table_name : pyval) (l : list field) (n : string) :
  outcome (get_table_metadata _dsl_service h table_name true) = Ret l →
  filter (λ f, name f = n) l
  = filter (λ f, name f = n) (listed_fields h table_name).
Proof.
  rewrite get_table_metadata_listed. intros [= <-].
  change (named n (sorted_by_name (listed_fields h table_name))
          = named n (listed_fields h table_name)).
  induction (listed_fields h table_name) as [|x fs IH]; [done|].
  change (sorted_by_name (x :: fs))
    with (insert_by_name x (sorted_by_name fs)).
  rewrite named_insert_by_name, IH. unfold named.
  by rewrite (filter_cons _ x).
Qed.

(** X10. When the listed fields are in name order already, the sort flag
    changes nothing: [show_metadata] makes the same calls and gives the same
    envelope with and without it. *)
Theorem sorted_input_unchanged (h : host) (resource_id : pyval) :
  Sorted name_le (listed_fields h resource_id) →
  show_metadata _dsl_service h resource_id true
  = show_metadata _dsl_service h resource_id false.
Proof.
  intros Hsorted.
  rewrite (surjective_pairing (show_metadata _dsl_service h resource_id true)),
    (surjective_pairing (show_metadata _dsl_service h resource_id false)).
  f_equal.
  - change (calls (show_metadata _dsl_service h resource_id true)
            = calls (show_metadata _dsl_service h resource_id false)).
    rewrite !show_metadata_calls.
    destruct (truthy resource_id); [|done].
    by rewrite !get_table_metadata_calls.
  - change (outcome (show_metadata _dsl_service h resource_id true)
            = outcome (show_metadata _dsl_service h resource_id false)).
    destruct (truthy resource_id) eqn:Hid.
    + destruct (show_metadata_outcome _dsl_service h resource_id true Hid)
        as (l1 & Hl1 & ->).
      destruct (show_metadata_outcome _dsl_service h resource_id false Hid)
        as (l2 & Hl2 & ->).
      rewrite get_table_metadata_listed in Hl1, Hl2.
      injection Hl1 as <-. injection Hl2 as <-.
      by rewrite sorted_by_name_id.
    + unfold show_metadata. by rewrite Hid.
Qed.

Lemma sort_is_stable_witness :
  outcome (get_table_metadata _dsl_service Samples.twins (PStr "r1") true)
  = Ret [ Field "c" "Key" ∅; Field "a" "Value" ∅; Field "b" "Value" ∅ ]
  ∧ filter (λ f, name f = "Value")
           [ Field "c" "Key" ∅; Field "a" "Value" ∅; Field "b" "Value" ∅ ]
    = filter (λ f, name f = "Value") (listed_fields Samples.twins (PStr "r1")).
Proof.
  split; [reflexivity|].
  apply (sort_is_stable Samples.twins (PStr "r1")). reflexivity.
Defined.

Lemma sorted_input_unchanged_witness :
  Sorted name_le (listed_fields Samples.ordered (PStr "r1"))
  ∧ show_metadata _dsl_service Samples.ordered (PStr "r1") true
    = show_metadata _dsl_service Samples.ordered (PStr "r1") false.
Proof.
  assert (Sorted name_le (listed_fields Samples.ordered (PStr "r1")))
    as Hsorted.
  { repeat constructor. }
  split; [exact Hsorted|].
  apply (sorted_input_unchanged Samples.ordered (PStr "r1") Hsorted).
Defined.

(** ** The rows of a query *)



(** X12. An envelope of the query endpoint that reports [success: false]
    has [data] null and a message that starts with "Query execution failed:
    "; one that reports [success: true] has an empty message. The
    "Unexpected error: " message of [query_data] is never sent. *)
Theorem query_failure_message
    (h : host) (context data_dict resp : gmap string pyval) :
  outcome (dsl_query_data h context data_dict) = Ret resp →
  (resp !! "success" = Some (PBool false) →
   resp !! "data" = Some PNone
   ∧ ∃ msg, resp !! "message" = Some (PStr msg)
            ∧ starts_with "Query execution failed: " msg
            ∧ ¬ starts_with "Unexpected error: " msg)
  ∧ (resp !! "success" = Some (PBool true) →
     resp !! "message" = Some (PStr "")
     ∧ ∃ rows, resp !! "data" = Some (PList rows)).
Proof.
  rewrite dsl_query_data_run.
  destruct (auth_check h context data_dict); [|done].
  cbn [outcome snd]. intros Hresp.
  destruct (truthy (dict_get data_dict "resourceID")) eqn:Hid;
    [destruct (truthy (dict_get data_dict "payload")) eqn:Hp|].
  - rewrite query_data_outcome, get_data_from_payload_outcome in Hresp
      by done.
    assert (∀ inner,
      resp = {[ "success" := PBool false; "data" := PNone;
                "message" := PStr ("Query execution failed: " +:+ inner) ]} →
      (resp !! "success" = Some (PBool false) →
       resp !! "data" = Some PNone
       ∧ ∃ msg, resp !! "message" = Some (PStr msg)
                ∧ starts_with "Query execution failed: " msg
                ∧ ¬ starts_with "Unexpected error: " msg)
      ∧ (resp !! "success" = Some (PBool true) →
         resp !! "message" = Some (PStr "")
         ∧ ∃ rows, resp !! "data" = Some (PList rows))) as Hfail.
    { intros inner ->. split.
      - intros _. split; [by rewrite lookup_insert_ne, lookup_insert_eq|].
        eexists. split; [by rewrite !lookup_insert_ne, lookup_singleton_eq|].
        split; [by eexists|]. by intros [rest Hrest].
      - by rewrite lookup_insert_eq. }
    destruct (outcome (_get_table_parser _ _ _)) as [p|e];
      [destruct (get_datas_by_payload p _) as [rows|e]|];
      injection Hresp as Hresp; symmetry in Hresp;
      try by apply (Hfail (exc_msg e)).
    subst resp. split; [by rewrite lookup_insert_eq|].
    intros _. split; [by rewrite !lookup_insert_ne, lookup_singleton_eq|].
    eexists. by rewrite lookup_insert_ne, lookup_insert_eq.
  - unfold query_data in Hresp. rewrite Hid, Hp in Hresp.
    injection Hresp as <-.
    by rewrite (proj2 (create_error_response_keys _ _ _)).
  - unfold query_data in Hresp. rewrite Hid in Hresp.
    injection Hresp as <-.
    by rewrite (proj2 (create_error_response_keys _ _ _)).
Qed.

Lemma query_failure_message_witness :
  (∃ msg, Samples.failed_query_reply !! "message" = Some (PStr msg)
          ∧ starts_with "Query execution failed: " msg
          ∧ ¬ starts_with "Unexpected error: " msg)
  ∧ Samples.query_reply !! "message" = Some (PStr "").
Proof.
  destruct (query_failure_message Samples.offline Samples.ctx
              Samples.id_payload Samples.failed_query_reply eq_refl)
    as [Hfail _].
  destruct (query_failure_message Samples.open Samples.ctx
              Samples.id_payload Samples.query_reply eq_refl)
    as [_ Hok].
  split.
  - apply Hfail. reflexivity.
  - apply Hok. reflexivity.
Defined.

(** ** The envelope of the metadata endpoint *)

(** X13. Every envelope the metadata endpoint returns has exactly the keys
    [success], [schema], [name], [resource_id] and [message]; [name] and
    [resource_id] both hold the [resourceID] of the request as it came, and
    the message is empty. *)
Theorem metadata_envelope_echo
    (h : host) (context data_dict resp : gmap string pyval) :
  outcome (show_dsl_metadata h context data_dict) = Ret resp →
  dom resp = {[ "success"; "schema"; "name"; "resource_id"; "message" ]}
  ∧ resp !! "name" = data_dict !! "resourceID"
  ∧ resp !! "resource_id" = data_dict !! "resourceID"
  ∧ resp !! "message" = Some (PStr "").
Proof.
  intros Hresp.
  assert (is_Some (data_dict !! "resourceID")) as [rid Hrid].
  { rewrite show_dsl_metadata_outcome in Hresp. unfold dict_get in Hresp.
    destruct (data_dict !! "resourceID"); [by eexists | done]. }
  apply show_dsl_metadata_returns in Hresp as (sort & fm & _ & ->).
  unfold dict_get. rewrite Hrid. cbn [from_option id].
  split; [|split; [|split]].
  - rewrite !dom_insert_L, dom_singleton_L.
    apply set_eq. intros k. rewrite !elem_of_union, !elem_of_singleton. tauto.
  - rewrite 2!lookup_insert_ne by done. apply lookup_insert_eq.
  - rewrite 3!lookup_insert_ne by done. apply lookup_insert_eq.
  - rewrite 4!lookup_insert_ne by done. apply lookup_singleton_eq.
Qed.

Lemma metadata_envelope_echo_witness :
  Samples.metadata_reply !! "name" = Samples.only_id !! "resourceID"
  ∧ Samples.metadata_reply !! "message" = Some (PStr "").
Proof.
  destruct (metadata_envelope_echo Samples.open Samples.ctx Samples.only_id
              Samples.metadata_reply) as (_ & Hname & _ & Hmsg).
  { vm_compute. reflexivity. }
  split; [exact Hname | exact Hmsg].
Defined.

(** ** More on the view predicate *)

Lemma str_lower_empty (s : string) : str_lower s = "" ↔ s = "".
Proof. by destruct s. Qed.

(** X14. [can_view] looks at the format only through its lowered form: two
    resources that differ in the letter case of the format alone get the
    same answer. *)
Theorem can_view_ignores_case
    (active : option pyval) (u : option string) (f1 f2 : string) :
  str_lower f1 = str_lower f2 →
  can_view (ViewData (Resource active u (Some f1)))
  = can_view (ViewData (Resource active u (Some f2))).
Proof.
  intros Hlower. unfold can_view.
  cbn [view_resource datastore_active url format].
  destruct (_ || _); [done|]. rewrite Hlower.
  destruct (String.eqb_spec f1 "") as [->|Hf1];
    destruct (String.eqb_spec f2 "") as [->|Hf2];
    cbn [negb]; cbn [str_lower] in Hlower; [done | | | done].
  - symmetry in Hlower. by apply (proj1 (str_lower_empty f2)) in Hlower.
  - by apply (proj1 (str_lower_empty f1)) in Hlower.
Qed.

Lemma can_view_ignores_case_witness :
  can_view (ViewData (Resource None (Some "https://host/a") (Some "XlsX")))
  = can_view (ViewData (Resource None (Some "https://host/a") (Some "xlsx"))).
Proof.
  apply (can_view_ignores_case None (Some "https://host/a") "XlsX" "xlsx").
  reflexivity.
Defined.

(** X15. For [can_view] a key the resource lacks counts as its empty
    value: no [datastore_active] is [False], no [url] is the empty string,
    no [format] is the empty string. A resource with none of the three keys
    cannot be viewed. *)
Theorem can_view_missing_keys
    (active : option pyval) (u f : option string) :
  can_view (ViewData (Resource active u f))
  = can_view (ViewData (Resource
                          (Some (PBool (truthy (default PNone active))))
                          (Some (default "" u))
                          (Some (default "" f))))
  ∧ can_view (ViewData (Resource None None None)) = false.
Proof.
  split; [|reflexivity]. unfold can_view.
  cbn [view_resource datastore_active url format from_option id truthy].
  destruct (_ || _); [done|]. by destruct f.
Qed.
